(** * TrollRestore: the restore workflow of [trollstore.py]

    A shallow embedding of the command [cli] and of [main]: the version
    gate, the lookup of the removable system application, the backup
    that is handed to the restore, the reading of the restore's error
    and the exit code of the process. *)

From Stdlib Require Import String Ascii List Bool NArith ZArith Lia.
Import ListNotations.
Open Scope string_scope.

(** ** Python strings

    A [str] stands for the bytes of its UTF-8 encoding, a [string] of
    8-bit characters: comparing, appending, [endswith], [in] and
    splitting at an ASCII character are the same on a text and on its
    bytes.  Lower-casing is not: [str.lower] follows the Unicode tables
    and belongs to the host, see [Host].  [lower] below folds the ASCII
    letters, which is what [str.lower] does on an ASCII text. *)

Module PyStr.

Definition lower_ascii (c : ascii) : ascii :=
  let n := N_of_ascii c in
  if (65 <=? n)%N && (n <=? 90)%N then ascii_of_N (n + 32) else c.

(** [s.lower()] *)
Fixpoint lower (s : string) : string :=
  match s with
  | EmptyString => EmptyString
  | String c s' => String (lower_ascii c) (lower s')
  end.

(** [s.startswith(p)] *)
Fixpoint startswith (s p : string) : bool :=
  match p, s with
  | EmptyString, _ => true
  | String _ _, EmptyString => false
  | String a p', String b s' => Ascii.eqb a b && startswith s' p'
  end.

(** [s.endswith(suf)] *)
Fixpoint endswith (s suf : string) : bool :=
  String.eqb s suf ||
  match s with
  | EmptyString => false
  | String _ s' => endswith s' suf
  end.

(** [needle in hay] *)
Fixpoint contains (needle hay : string) : bool :=
  startswith hay needle ||
  match hay with
  | EmptyString => false
  | String _ hay' => contains needle hay'
  end.

(** [s.split(sep)] for a one-character separator: never an empty list. *)
Fixpoint split (sep : ascii) (s : string) : list string :=
  match s with
  | EmptyString => [EmptyString]
  | String c s' =>
      if Ascii.eqb c sep then EmptyString :: split sep s'
      else match split sep s' with
           | [] => [String c EmptyString]
           | w :: ws => String c w :: ws
           end
  end.

(** [s.split(sep)[0]] *)
Definition split_first (sep : ascii) (s : string) : string :=
  hd EmptyString (split sep s).

(** Truth value of a [str]. *)
Definition truthy (s : string) : bool :=
  negb (String.eqb s EmptyString).

(** No occurrence of the character [c] in [s]. *)
Fixpoint lacks (c : ascii) (s : string) : bool :=
  match s with
  | EmptyString => true
  | String a s' => negb (Ascii.eqb a c) && lacks c s'
  end.

End PyStr.

(** ** Versions

    [packaging.version.parse] on a release-only version string such as
    ["16.7.1"] gives a [Version] whose comparison key is its release
    tuple with the trailing zeros removed; the comparisons are those of
    Python tuples on that key. *)

Module Version.

Definition version := list N.

Fixpoint strip_leading_zeros (l : list N) : list N :=
  match l with
  | 0%N :: l' => strip_leading_zeros l'
  | _ => l
  end.

(** The key: [reversed(dropwhile(== 0, reversed(release)))]. *)
Definition key (v : version) : list N :=
  rev (strip_leading_zeros (rev v)).

(** Python's ordering of tuples of integers. *)
Fixpoint tuple_compare (a b : list N) : comparison :=
  match a, b with
  | [], [] => Eq
  | [], _ :: _ => Lt
  | _ :: _, [] => Gt
  | x :: a', y :: b' =>
      match (x ?= y)%N with
      | Eq => tuple_compare a' b'
      | c => c
      end
  end.

Definition compare (v w : version) : comparison :=
  tuple_compare (key v) (key w).

Definition lt (v w : version) : bool :=
  match compare v w with Lt => true | _ => false end.
Definition gt (v w : version) : bool :=
  match compare v w with Gt => true | _ => false end.
Definition eq (v w : version) : bool :=
  match compare v w with Eq => true | _ => false end.
Definition le (v w : version) : bool :=
  match compare v w with Gt => false | _ => true end.

End Version.

(** ** Paths

    [pathlib.Path] in its POSIX flavour: a root (none, ["/"] or
    ["//"]) and the components that are neither empty nor ["."].  The
    flavour a run uses is that of its host, see [Host]. *)

Module PyPath.

Record path := mkPath { root : string; comps : list string }.

Fixpoint leading_slashes (s : string) : nat :=
  match s with
  | String "/" s' => S (leading_slashes s')
  | _ => 0
  end.

(** [splitroot]: two leading slashes, and only two, give the root ["//"]. *)
Definition splitroot (s : string) : string :=
  match leading_slashes s with
  | 0 => ""
  | 2 => "//"
  | _ => "/"
  end.

Definition kept (x : string) : bool :=
  negb (String.eqb x "") && negb (String.eqb x ".").

(** [Path(s)] *)
Definition Path (s : string) : path :=
  mkPath (splitroot s) (filter kept (PyStr.split "/" s)).

(** [p.name] *)
Definition name (p : path) : string := last (comps p) "".

(** [p.parent] *)
Definition parent (p : path) : path := mkPath (root p) (removelast (comps p)).

Fixpoint prefixes_desc (n : nat) (l : list string) : list (list string) :=
  match n with
  | 0 => []
  | S k => firstn k l :: prefixes_desc k l
  end.

(** [p.parents]: the parent, its parent, and so on up to the anchor. *)
Definition parents (p : path) : list path :=
  map (mkPath (root p)) (prefixes_desc (length (comps p)) (comps p)).

Fixpoint comps_eqb (a b : list string) : bool :=
  match a, b with
  | [], [] => true
  | x :: a', y :: b' => String.eqb x y && comps_eqb a' b'
  | _, _ => false
  end.

(** [p == q] *)
Definition eqb (p q : path) : bool :=
  String.eqb (root p) (root q) && comps_eqb (comps p) (comps q).

(** [p in ps] *)
Definition mem (p : path) (ps : list path) : bool := existsb (eqb p) ps.

End PyPath.

(** ** The host

    Two parts of Python's library answer according to where the script
    runs: [str.lower] follows the Unicode tables of the interpreter, and
    [pathlib.Path] reads a path in the flavour of the platform, POSIX or
    Windows.  The command is modelled over any such host; what is used
    of a path is what [cli] uses: [Path(s)], [.name], [.parent],
    [.parents] and [==]. *)

Module Host.

Class t : Type := {
  (** [s.lower()] *)
  lower : string -> string;
  path : Type;
  (** [Path(s)] *)
  Path : string -> path;
  (** [p.name] *)
  name : path -> string;
  (** [p.parent] *)
  parent : path -> path;
  (** [p.parents] *)
  parents : path -> list path;
  (** [p == q] *)
  eqb : path -> path -> bool
}.

(** [p in ps] *)
Definition mem {host : t} (p : path) (ps : list path) : bool :=
  existsb (eqb p) ps.

(** A POSIX host with the lower-casing [fold]. *)
Definition posix (fold : string -> string) : t :=
  {| lower := fold;
     path := PyPath.path;
     Path := PyPath.Path;
     name := PyPath.name;
     parent := PyPath.parent;
     parents := PyPath.parents;
     eqb := PyPath.eqb |}.

(** The POSIX host on ASCII texts, where [str.lower] is the fold of the
    ASCII letters. *)
Definition ascii_posix : t := posix PyStr.lower.

End Host.

(** ** Backup entries *)

Definition bytes := list Byte.byte.

(** Modelled from the spec: the entry classes [backup.Directory] and
    [backup.ConcreteFile] and the container [backup.Backup] of the
    package [sparserestore].  An entry has a relative path and a domain,
    both required, and an optional owner and group; a concrete file
    also has its contents and an optional inode hint.  A backup is the
    ordered sequence of its entries. *)
Inductive BackupFile : Type :=
| Directory (path domain : string) (owner group : option Z)
| ConcreteFile (path domain : string) (owner group : option Z)
               (contents : bytes) (inode : option Z).

Definition Backup := list BackupFile.

Definition entry_path (f : BackupFile) : string :=
  match f with
  | Directory p _ _ _ => p
  | ConcreteFile p _ _ _ _ _ => p
  end.

Definition entry_domain (f : BackupFile) : string :=
  match f with
  | Directory _ d _ _ => d
  | ConcreteFile _ d _ _ _ _ => d
  end.

Definition is_directory (f : BackupFile) : bool :=
  match f with
  | Directory _ _ _ _ => true
  | ConcreteFile _ _ _ _ _ _ => false
  end.

(** ** Exceptions *)

Inductive exn_class : Type :=
| NoDeviceConnectedError
| PyMobileDevice3Exception
| UsageError
| OtherException.

Record exn := mkExn { exn_type : exn_class; exn_str : string }.

(** [isinstance(e, PyMobileDevice3Exception)]: [NoDeviceConnectedError]
    is a subclass. *)
Definition is_pymobiledevice3 (e : exn) : bool :=
  match exn_type e with
  | NoDeviceConnectedError | PyMobileDevice3Exception => true
  | UsageError | OtherException => false
  end.

(** ** What the command does to the outside *)

Inductive message : Type :=
| cannot_get_device_info | ensure_connected
| unsupported (os_name : string) (v : Version.version) (build : string)
| compatible_range
| app_not_found (app : string) | check_app_name (app : string)
| not_removable (app : string) | choose_removable
| download_failed
| replacing (app uuid : string)
| find_my_enabled | disable_find_my
| rebooting
| reenable_find_my | install_persistence_helper
| connect_device
| usage (text : string) | help
| error_occurred | traceback (e : exn).

Inductive event : Type :=
| Secho (m : message)
| Prompt
| GetApps
| HttpGet
| PerformRestore (back : Backup) (reboot : bool)
| Restart.

(** The five places where [cli] gives up with a plain [return]. *)
Inductive gave_up : Type :=
| DeviceInfoUnavailable
| UnsupportedVersion
| AppNotFound
| AppNotRemovable
| PayloadUnavailable.

(** How a piece of the command ends: it runs on, it returns from [cli],
    it calls [sys.exit], or it raises. *)
Inductive ending (A : Type) : Type :=
| Done (a : A)
| Return (why : gave_up)
| SystemExit (code : Z)
| Raise (e : exn).
Arguments Done {A} a.
Arguments Return {A} why.
Arguments SystemExit {A} code.
Arguments Raise {A} e.

Definition M (A : Type) : Type := (list event * ending A)%type.

Definition ret {A} (a : A) : M A := ([], Done a).

Definition bind {A B} (c : M A) (k : A -> M B) : M B :=
  match c with
  | (t, Done a) => let (t', r) := k a in ((t ++ t')%list, r)
  | (t, Return why) => (t, Return why)
  | (t, SystemExit code) => (t, SystemExit code)
  | (t, Raise e) => (t, Raise e)
  end.

Declare Scope py_scope.
Delimit Scope py_scope with py.
Notation "x <- c ;; k" := (bind c (fun x => k))
  (at level 61, c at next level, right associativity) : py_scope.
Notation "c ;; k" := (bind c (fun _ => k))
  (at level 61, right associativity) : py_scope.
Open Scope py_scope.

Definition emit (e : event) : M unit := ([e], Done tt).
Definition secho (m : message) : M unit := emit (Secho m).
Definition early_return {A} (why : gave_up) : M A := ([], Return why).
Definition raise {A} (e : exn) : M A := ([], Raise e).

(** [exit(code)] of the script: [sys.exit(code)]. *)
Definition exit {A} (code : Z) : M A := ([], SystemExit code).

(** [try: c  except <catches> as e: handler e] *)
Definition try_except {A} (c : M A) (catches : exn -> bool)
    (handler : exn -> M A) : M A :=
  match c with
  | (t, Raise e) =>
      if catches e then let (t', r) := handler e in ((t ++ t')%list, r)
      else (t, Raise e)
  | other => other
  end.

(** A call of a collaborator that may raise. *)
Definition call {A} (ev : event) (r : exn + A) : M A :=
  match r with
  | inl e => ([ev], Raise e)
  | inr a => ([ev], Done a)
  end.

(** ** The device and the other collaborators

    What one run of the command can observe: the answers of the device
    session, of the application registry, of the download, of the
    restore and of the restart. *)

Inductive app_value : Type :=
| NotADict
| AppDict (Path : option string).

(** The mapping returned by [get_apps], in iteration order. *)
Definition registry := list (string * app_value).

Record world := mkWorld {
  (** an exception of the command line or of the device session, raised
      before the body of [cli] runs; [None] when the body is entered *)
  startup : option exn;
  (** the option [--app] *)
  app_option : option string;
  (** the answer [click.prompt] returns when it is asked *)
  prompt_reply : string;
  DeviceClass : option string;
  BuildVersion : option string;
  (** [parse_version(service_provider.product_version)] *)
  product_version : Version.version;
  get_apps : exn + registry;
  (** the downloaded helper; [None] when [requests] raises *)
  http_get : option bytes;
  perform_restore : Backup -> exn + unit;
  restart : exn + unit
}.

(** Truth value of a value that is [None] or a [str]. *)
Definition truthy_opt (o : option string) : bool :=
  match o with
  | None => false
  | Some s => PyStr.truthy s
  end.

Definition unwrap (o : option string) : string :=
  match o with
  | None => ""
  | Some s => s
  end.

(** [all(l)] *)
Definition all (l : list bool) : bool := forallb (fun b => b) l.

Definition os_names : list (string * string) :=
  [ ("iPhone", "iOS");
    ("iPad", "iPadOS");
    ("iPod", "iOS");
    ("AppleTV", "tvOS");
    ("Watch", "watchOS");
    ("AudioAccessory", "HomePod Software Version");
    ("RealityDevice", "visionOS") ].

Fixpoint lookup (k : string) (d : list (string * string)) : option string :=
  match d with
  | [] => None
  | (k', v) :: d' => if String.eqb k k' then Some v else lookup k d'
  end.

Definition os_name_of (device_class : string) : string :=
  match lookup device_class os_names with
  | Some n => n ++ " "
  | None => ""
  end.

(** ** The version gate: the condition of the second [if] of [cli] *)

Definition unsupported_version (device_version : Version.version)
    (device_build : string) : bool :=
  Version.lt device_version [15; 0]%N
  || Version.gt device_version [17; 0]%N
  || (Version.lt [16; 7]%N device_version && Version.lt device_version [17; 0]%N)
  || (Version.eq device_version [16; 7]%N && negb (String.eqb device_build "20H18")).

Definition version_gate (v : Version.version) (b : string) : bool :=
  negb (unsupported_version v b).

Section Model.

Context {host : Host.t}.

(** ** The application resolver *)

(** [if not app.endswith(".app"): app += ".app"] *)
Definition normalize_app (app : string) : string :=
  if negb (PyStr.endswith app ".app") then app ++ ".app" else app.

(** One turn of the loop over [apps_json.items()]; the state is the
    pair of the variables [app_path] and [app]. *)
Definition scan_step (st : option Host.path * string)
    (item : string * app_value) : option Host.path * string :=
  let '(app_path, app) := st in
  match snd item with
  | AppDict (Some p) =>
      let potential_path := Host.Path p in
      if String.eqb (Host.lower (Host.name potential_path)) (Host.lower app)
      then (Some potential_path, Host.name potential_path)
      else (app_path, app)
  | _ => (app_path, app)
  end.

Definition scan_apps (apps_json : registry) (app : string)
    : option Host.path * string :=
  fold_left scan_step apps_json (None, app).

Definition removable_root : Host.path :=
  Host.Path "/private/var/containers/Bundle/Application".

(** From the loop to [app_uuid]: the name of the bundle and the UUID. *)
Definition resolve_app (apps_json : registry) (app : string)
    : M (string * string) :=
  let '(app_path, app) := scan_apps apps_json app in
  match app_path with
  | None =>
      secho (app_not_found app) ;;
      secho (check_app_name app) ;;
      early_return AppNotFound
  | Some app_path =>
      if negb (Host.mem removable_root (Host.parents app_path)) then
        secho (not_removable app) ;;
        secho choose_removable ;;
        early_return AppNotRemovable
      else
        ret (app, Host.name (Host.parent app_path))
  end.

(** The resolver on the name as the user gave it. *)
Definition app_resolver (apps_json : registry) (app : string)
    : M (string * string) :=
  resolve_app apps_json (normalize_app app).

(** ** The manifest: the argument of [backup.Backup] *)

Definition build_backup (helper_contents : bytes) (app app_uuid : string)
    : Backup :=
  [ Directory "" "RootDomain" None None;
    Directory "Library" "RootDomain" None None;
    Directory "Library/Preferences" "RootDomain" None None;
    ConcreteFile "Library/Preferences/temp" "RootDomain"
      (Some 33%Z) (Some 33%Z) helper_contents (Some 0%Z);
    Directory ""
      ("SysContainerDomain-../../../../../../../../var/backup/var/containers/Bundle/Application/"
         ++ app_uuid ++ "/" ++ app)
      (Some 33%Z) (Some 33%Z);
    ConcreteFile ""
      ("SysContainerDomain-../../../../../../../../var/backup/var/containers/Bundle/Application/"
         ++ app_uuid ++ "/" ++ app ++ "/" ++ PyStr.split_first "." app)
      (Some 33%Z) (Some 33%Z) [] (Some 0%Z);
    ConcreteFile ""
      "SysContainerDomain-../../../../../../../../var/.backup.i/var/root/Library/Preferences/temp"
      (Some 501%Z) (Some 501%Z) [] None;
    ConcreteFile ""
      ("SysContainerDomain-../../../../../../../.." ++ "/crash_on_purpose")
      None None [] None ].

(** ** The restore and the reading of its error *)

Definition restore_handler (e : exn) : M unit :=
  if PyStr.contains "Find My" (exn_str e) then
    secho find_my_enabled ;;
    secho disable_find_my ;;
    exit 1%Z
  else if negb (PyStr.contains "crash_on_purpose" (exn_str e)) then
    raise e
  else
    ret tt.

Definition submit_restore (w : world) (back : Backup) : M unit :=
  try_except
    (call (PerformRestore back false) (perform_restore w back))
    is_pymobiledevice3
    restore_handler.

(** What follows the [try] around the restore. *)
Definition reboot_device (w : world) : M unit :=
  secho rebooting ;;
  call Restart (restart w) ;;
  secho reenable_find_my ;;
  secho install_persistence_helper.

(** ** The command *)

(** The two tests on the device: its description is complete and its
    version is supported. *)
Definition check_device (w : world) : M unit :=
  let device_class := DeviceClass w in
  let device_build := BuildVersion w in
  let device_version := product_version w in
  if negb (all [truthy_opt device_class; truthy_opt device_build; true]) then
    secho cannot_get_device_info ;;
    secho ensure_connected ;;
    early_return DeviceInfoUnavailable
  else
  let os_name := os_name_of (unwrap device_class) in
  if unsupported_version device_version (unwrap device_build) then
    secho (unsupported os_name device_version (unwrap device_build)) ;;
    secho compatible_range ;;
    early_return UnsupportedVersion
  else
    ret tt.

(** [if not app: app = click.prompt(...)] *)
Definition choose_app (w : world) : M string :=
  if negb (truthy_opt (app_option w))
  then call Prompt (inr (prompt_reply w))
  else ret (unwrap (app_option w)).

(** The download of the helper, inside its [try]. *)
Definition fetch_helper (w : world) : M bytes :=
  match http_get w with
  | Some content => emit HttpGet ;; ret content
  | None =>
      emit HttpGet ;;
      secho download_failed ;;
      early_return PayloadUnavailable
  end.

(** [cli] up to the construction of [back]. *)
Definition prepare (w : world) : M Backup :=
  check_device w ;;
  app <- choose_app w ;;
  let app := normalize_app app in
  apps_json <- call GetApps (get_apps w) ;;
  resolved <- resolve_app apps_json app ;;
  let '(app, app_uuid) := resolved in
  helper_contents <- fetch_helper w ;;
  secho (replacing app app_uuid) ;;
  ret (build_backup helper_contents app app_uuid).

Definition cli (w : world) : M unit :=
  back <- prepare w ;;
  submit_restore w back ;;
  reboot_device w.

(** [cli(standalone_mode=False)]: the command line and the device
    session first, then the body; a [return] of the body ends the call.
    The runs described are those in which click raises before the body
    or enters it. *)
Definition invoke_cli (w : world) : M unit :=
  match startup w with
  | Some e => raise e
  | None =>
      match cli w with
      | (t, Return _) => (t, Done tt)
      | other => other
      end
  end.

Definition main_handler (e : exn) : M unit :=
  match exn_type e with
  | NoDeviceConnectedError =>
      secho connect_device ;;
      exit 1%Z
  | UsageError =>
      secho (usage (exn_str e)) ;;
      secho help ;;
      exit 2%Z
  | PyMobileDevice3Exception | OtherException =>
      secho error_occurred ;;
      secho (traceback e) ;;
      exit 1%Z
  end.

Definition main (w : world) : M unit :=
  try_except (invoke_cli w) (fun _ => true) main_handler ;;
  exit 0%Z.

(** The exit code of the process. *)
Definition exit_code (c : M unit) : Z :=
  match snd c with
  | SystemExit code => code
  | Done _ | Return _ => 0%Z
  | Raise _ => 1%Z
  end.

Definition trace (c : M unit) : list event := fst c.

(** ** Sample runs *)

Definition tips_path : string :=
  "/private/var/containers/Bundle/Application/ABCD-1234/Tips.app".

Definition tips_registry : registry :=
  [ ("com.apple.tips", AppDict (Some tips_path)) ].

(** A registry with two bundles of the same name, the first one outside
    the removable root. *)
Definition two_tips_registry : registry :=
  [ ("com.example.builtin", AppDict (Some "/Applications/Tips.app"));
    ("com.apple.tips", AppDict (Some tips_path)) ].

(** An iPhone with the given version and build, the Tips application
    installed, the user asking for ["Tips"], and a restore that answers
    [restore_answer]. *)
Definition iphone (v : Version.version) (build : string)
    (restore_answer : exn + unit) : world :=
  {| startup := None;
     app_option := Some "Tips";
     prompt_reply := "";
     DeviceClass := Some "iPhone";
     BuildVersion := Some build;
     product_version := v;
     get_apps := inr tips_registry;
     http_get := Some [];
     perform_restore := fun _ => restore_answer;
     restart := inr tt |}.

Definition tips_backup : Backup := build_backup [] "Tips.app" "ABCD-1234".

(** The same telephone on iOS 16.6 with other surroundings: the build
    it reports, the registry and the download. *)
Definition iphone_16_6 (build : option string) (apps_json : registry)
    (download : option bytes) : world :=
  {| startup := None;
     app_option := Some "Tips";
     prompt_reply := "";
     DeviceClass := Some "iPhone";
     BuildVersion := build;
     product_version := [16; 6]%N;
     get_apps := inr apps_json;
     http_get := download;
     perform_restore := fun _ => inr tt;
     restart := inr tt |}.

(** An error of the restore that carries both markers. *)
Definition both_markers : exn :=
  mkExn PyMobileDevice3Exception "Find My crash_on_purpose".

(** An error from outside the family of the restore that names the
    locator. *)
Definition foreign_find_my : exn := mkExn OtherException "Find My".

(** ** Notions used to state the properties *)

(** The path of a registry entry when its final segment matches [app]
    without regard to case. *)
Definition matching_path (app : string) (item : string * app_value)
    : option Host.path :=
  match snd item with
  | AppDict (Some p) =>
      if String.eqb (Host.lower (Host.name (Host.Path p))) (Host.lower app)
      then Some (Host.Path p)
      else None
  | _ => None
  end.

(** The first matching entry of the registry, in the words of the
    specification. *)
Fixpoint first_match (app : string) (apps_json : registry)
    : option Host.path :=
  match apps_json with
  | [] => None
  | item :: rest =>
      match matching_path app item with
      | Some p => Some p
      | None => first_match app rest
      end
  end.

(** The last matching entry of the registry. *)
Fixpoint last_match (app : string) (apps_json : registry)
    : option Host.path :=
  match apps_json with
  | [] => None
  | item :: rest =>
      match last_match app rest with
      | Some p => Some p
      | None => matching_path app item
      end
  end.

(** The segments of a domain or of a relative path. *)
Definition segments (s : string) : list string :=
  filter (fun x => negb (String.eqb x "")) (PyStr.split "/" s).

(** Where the restore puts an entry: the segments of its domain, then
    those of its relative path. *)
Definition location (f : BackupFile) : list string :=
  (segments (entry_domain f) ++ segments (entry_path f))%list.

Fixpoint is_prefix (a b : list string) : bool :=
  match a, b with
  | [], _ => true
  | _ :: _, [] => false
  | x :: a', y :: b' => String.eqb x y && is_prefix a' b'
  end.

(** Eight steps up. *)
Definition up8 : string := String.concat "" (repeat "../" 8).

(** ** Notions used to state further properties *)

(** The entry of the registry is a dictionary with the key "Path". *)
Definition carries_path (item : string * app_value) : bool :=
  match snd item with
  | AppDict (Some _) => true
  | _ => false
  end.

(** A name that [Path] keeps as one component. *)
Definition plain_segment (s : string) : bool :=
  PyStr.lacks "/" s && PyPath.kept s.

Definition is_restore (ev : event) : bool :=
  match ev with
  | PerformRestore _ _ => true
  | _ => false
  end.

Definition is_restart (ev : event) : bool :=
  match ev with
  | Restart => true
  | _ => false
  end.

Definition is_secho (ev : event) : bool :=
  match ev with
  | Secho _ => true
  | _ => false
  end.

(** The bytes an entry brings: none for a directory. *)
Definition entry_contents (f : BackupFile) : bytes :=
  match f with
  | Directory _ _ _ _ => []
  | ConcreteFile _ _ _ _ contents _ => contents
  end.

Definition entry_owner (f : BackupFile) : option Z :=
  match f with
  | Directory _ _ owner _ => owner
  | ConcreteFile _ _ owner _ _ _ => owner
  end.

(** The description of the device is complete: the first test of [cli]. *)
Definition device_info_complete (w : world) : bool :=
  all [truthy_opt (DeviceClass w); truthy_opt (BuildVersion w); true].

(** The ways [cli] can go up to the construction of the backup, each
    with the answers of the collaborators that lead to it. *)
Inductive prepared (w : world) : M Backup -> Prop :=
| prepared_no_info :
    device_info_complete w = false ->
    prepared w
      ([Secho cannot_get_device_info; Secho ensure_connected],
       Return DeviceInfoUnavailable)
| prepared_unsupported :
    device_info_complete w = true ->
    unsupported_version (product_version w) (unwrap (BuildVersion w)) = true ->
    prepared w
      ([Secho (unsupported (os_name_of (unwrap (DeviceClass w)))
                 (product_version w) (unwrap (BuildVersion w)));
        Secho compatible_range],
       Return UnsupportedVersion)
| prepared_registry_error (tp : list event) (app : string) (e : exn) :
    device_info_complete w = true ->
    unsupported_version (product_version w) (unwrap (BuildVersion w)) = false ->
    choose_app w = (tp, Done app) ->
    get_apps w = inl e ->
    prepared w ((tp ++ [GetApps])%list, Raise e)
| prepared_resolver_gave_up (tp tr : list event) (app : string)
    (apps_json : registry) (why : gave_up) :
    device_info_complete w = true ->
    unsupported_version (product_version w) (unwrap (BuildVersion w)) = false ->
    choose_app w = (tp, Done app) ->
    get_apps w = inr apps_json ->
    app_resolver apps_json app = (tr, Return why) ->
    why = AppNotFound \/ why = AppNotRemovable ->
    prepared w ((tp ++ GetApps :: tr)%list, Return why)
| prepared_download_failed (tp : list event) (app bundle uuid : string)
    (apps_json : registry) :
    device_info_complete w = true ->
    unsupported_version (product_version w) (unwrap (BuildVersion w)) = false ->
    choose_app w = (tp, Done app) ->
    get_apps w = inr apps_json ->
    app_resolver apps_json app = ([], Done (bundle, uuid)) ->
    http_get w = None ->
    prepared w
      ((tp ++ [GetApps; HttpGet; Secho download_failed])%list,
       Return PayloadUnavailable)
| prepared_ready (tp : list event) (app bundle uuid : string)
    (apps_json : registry) (content : bytes) :
    device_info_complete w = true ->
    unsupported_version (product_version w) (unwrap (BuildVersion w)) = false ->
    choose_app w = (tp, Done app) ->
    get_apps w = inr apps_json ->
    app_resolver apps_json app = ([], Done (bundle, uuid)) ->
    http_get w = Some content ->
    prepared w
      ((tp ++ [GetApps; HttpGet; Secho (replacing bundle uuid)])%list,
       Done (build_backup content bundle uuid)).

(** The answer of the restore after which [cli] goes on to the restart:
    no error, or an error of the family of the restore whose message has
    "crash_on_purpose" and not "Find My". *)
Definition restore_accepted (answer : exn + unit) : bool :=
  match answer with
  | inr _ => true
  | inl e =>
      is_pymobiledevice3 e
      && negb (PyStr.contains "Find My" (exn_str e))
      && PyStr.contains "crash_on_purpose" (exn_str e)
  end.

(** The number of restores in a trace. *)
Definition restores (t : list event) : nat := length (filter is_restore t).

(** The number of restarts in a trace. *)
Definition restarts (t : list event) : nat := length (filter is_restart t).

(** The name [cli] works with: the option [--app], or the answer to
    the prompt. *)
Definition chosen_app (w : world) : string :=
  match snd (choose_app w) with
  | Done app => app
  | _ => ""
  end.

(** The path string made of the segments [segs] and the final name
    [n], with a slash after each segment. *)
Definition join_segments (segs : list string) (n : string) : string :=
  fold_right (fun s acc => s ++ "/" ++ acc) n segs.

(** The string of a bundle below the removable root. *)
Definition bundle_path (segs : list string) (n : string) : string :=
  "/private/var/containers/Bundle/Application/" ++ join_segments segs n.

End Model.

(** * Properties, on any host *)

Section Properties.

Context {host : Host.t}.

(** ** Properties of the auxiliary functions *)

Lemma tuple_compare_opp (a : list N) :
  forall b, Version.tuple_compare b a = CompOpp (Version.tuple_compare a b).
Proof.
  induction a as [|x a IH]; destruct b as [|y b]; simpl; trivial.
  rewrite (N.compare_antisym y x).
  destruct (y ?= x)%N; simpl; auto.
Qed.

Lemma version_compare_opp (v w : Version.version) :
  Version.compare w v = CompOpp (Version.compare v w).
Proof. unfold Version.compare. apply tuple_compare_opp. Qed.

(** [not (v < w)] is [w <= v]. *)
Lemma version_lt_false (v w : Version.version) :
  Version.lt v w = false <-> Version.le w v = true.
Proof.
  unfold Version.lt, Version.le. rewrite (version_compare_opp v w).
  destruct (Version.compare v w); simpl; split; congruence.
Qed.

(** [not (v > w)] is [v <= w]. *)
Lemma version_gt_false (v w : Version.version) :
  Version.gt v w = false <-> Version.le v w = true.
Proof.
  unfold Version.gt, Version.le.
  destruct (Version.compare v w); simpl; split; congruence.
Qed.

Lemma tuple_compare_eq (a : list N) :
  forall b, Version.tuple_compare a b = Eq <-> a = b.
Proof.
  induction a as [|x a IH]; destruct b as [|y b]; simpl;
    try (split; [discriminate | discriminate]); try tauto.
  destruct (N.compare_spec x y) as [-> | H | H].
  - rewrite IH. split; [intros ->; reflexivity | intros [= ->]; reflexivity].
  - split; [discriminate | intros [= -> _]; lia].
  - split; [discriminate | intros [= -> _]; lia].
Qed.

(** [v == w] compares the keys. *)
Lemma version_eq_key (v w : Version.version) :
  Version.eq v w = true <-> Version.key v = Version.key w.
Proof.
  unfold Version.eq, Version.compare. rewrite <- tuple_compare_eq.
  destruct (Version.tuple_compare (Version.key v) (Version.key w));
    split; congruence.
Qed.

(** ** The version gate *)

Lemma version_gate_window (v : Version.version) (b : string) :
  version_gate v b = true <->
    (Version.le [15; 0]%N v = true /\ Version.le v [17; 0]%N = true) /\
    ~ (Version.lt [16; 7]%N v = true /\ Version.lt v [17; 0]%N = true) /\
    (Version.eq v [16; 7]%N = false \/ b = "20H18").
Proof.
  unfold version_gate, unsupported_version.
  rewrite negb_true_iff, !orb_false_iff, !andb_false_iff.
  rewrite version_lt_false, version_gt_false, negb_false_iff, String.eqb_eq.
  split.
  - intros [[[H1 H2] H3] H4]. repeat split; trivial.
    intros [Ha Hb]. destruct H3; congruence.
  - intros [[H1 H2] [H3 H4]]. repeat split; trivial.
    destruct (Version.lt [16; 7]%N v) eqn:Ea; [|now left].
    destruct (Version.lt v [17; 0]%N) eqn:Eb; [|now right].
    exfalso. apply H3. now split.
Qed.

(** 16.6 passes with any build, 16.7 only with the build 20H18, 17.0
    and 17.0.0 pass, 16.7.1 and 17.0.1 do not. *)
Example version_gate_scenarios :
  version_gate [16; 6]%N "X" = true /\
  version_gate [16; 7]%N "20H18" = true /\
  version_gate [16; 7]%N "20H17" = false /\
  version_gate [16; 7; 0]%N "20H17" = false /\
  version_gate [17; 0]%N "21A329" = true /\
  version_gate [17; 0; 0]%N "21A329" = true /\
  version_gate [16; 7; 1]%N "20H30" = false /\
  version_gate [17; 0; 1]%N "21A340" = false /\
  version_gate [14; 8]%N "18H17" = false.
Proof. repeat split. Qed.

Lemma truthy_nonempty (s : string) : s <> "" -> PyStr.truthy s = true.
Proof.
  intros H. unfold PyStr.truthy. apply negb_true_iff, String.eqb_neq, H.
Qed.

(** C1: the gate accepts a version [v] and a build [b] exactly when
    15.0 <= v <= 17.0, v is not strictly between 16.7 and 17.0, and
    v is not 16.7 or b is "20H18"; on a device whose description is
    complete, an accepted pair lets the command go on and any other pair
    ends [cli] at once with the two messages of the unsupported version
    and nothing else. *)
Theorem eligibility_gate (v : Version.version) (b : string) :
  (version_gate v b = true <->
     (Version.le [15; 0]%N v = true /\ Version.le v [17; 0]%N = true) /\
     ~ (Version.lt [16; 7]%N v = true /\ Version.lt v [17; 0]%N = true) /\
     (Version.eq v [16; 7]%N = false \/ b = "20H18")) /\
  (forall w : world,
     product_version w = v -> BuildVersion w = Some b -> b <> "" ->
     truthy_opt (DeviceClass w) = true ->
     (version_gate v b = true -> check_device w = ret tt) /\
     (version_gate v b = false ->
      cli w =
        ([Secho (unsupported (os_name_of (unwrap (DeviceClass w))) v b);
          Secho compatible_range],
         Return UnsupportedVersion))).
Proof.
  split; [apply version_gate_window|].
  intros w Hv Hb Hne Hc.
  assert (Hall : all [truthy_opt (DeviceClass w); truthy_opt (BuildVersion w); true]
                 = true).
  { simpl. rewrite Hc, Hb. simpl. now rewrite (truthy_nonempty b Hne). }
  unfold version_gate. split; intros Hg.
  - apply negb_true_iff in Hg. unfold check_device.
    rewrite Hall, Hv, Hb. simpl. now rewrite Hg.
  - apply negb_false_iff in Hg. unfold cli, prepare, check_device.
    rewrite Hall, Hv, Hb. simpl. now rewrite Hg.
Qed.

(** ** The manifest *)

Lemma append_assoc (a b c : string) : (a ++ b) ++ c = a ++ b ++ c.
Proof. induction a as [|x a IH]; simpl; [reflexivity | now rewrite IH]. Qed.

Lemma split_at_first (sep : ascii) (stem rest : string) :
  PyStr.lacks sep stem = true ->
  PyStr.split sep (stem ++ String sep rest) = stem :: PyStr.split sep rest.
Proof.
  induction stem as [|c stem IH]; simpl; intros H.
  - now rewrite Ascii.eqb_refl.
  - apply andb_true_iff in H. destruct H as [Hc Hs].
    apply negb_true_iff in Hc. rewrite Hc, (IH Hs). reflexivity.
Qed.

Lemma split_first_stem (stem ext : string) :
  PyStr.lacks "." stem = true ->
  PyStr.split_first "." (stem ++ "." ++ ext) = stem.
Proof.
  intros H. unfold PyStr.split_first.
  change (stem ++ "." ++ ext) with (stem ++ String "." ext).
  now rewrite (split_at_first "." stem ext H).
Qed.

(** The eight entries, for any bundle name. *)
Lemma build_backup_entries (helper_contents : bytes) (app app_uuid : string) :
  let container :=
    "SysContainerDomain-" ++ up8
      ++ "var/backup/var/containers/Bundle/Application/" ++ app_uuid ++ "/" ++ app in
  build_backup helper_contents app app_uuid =
    [ Directory "" "RootDomain" None None;
      Directory "Library" "RootDomain" None None;
      Directory "Library/Preferences" "RootDomain" None None;
      ConcreteFile "Library/Preferences/temp" "RootDomain"
        (Some 33%Z) (Some 33%Z) helper_contents (Some 0%Z);
      Directory "" container (Some 33%Z) (Some 33%Z);
      ConcreteFile "" (container ++ "/" ++ PyStr.split_first "." app)
        (Some 33%Z) (Some 33%Z) [] (Some 0%Z);
      ConcreteFile ""
        ("SysContainerDomain-" ++ up8 ++ "var/.backup.i/var/root/Library/Preferences/temp")
        (Some 501%Z) (Some 501%Z) [] None;
      ConcreteFile "" ("SysContainerDomain-" ++ up8 ++ "crash_on_purpose")
        None None [] None ].
Proof.
  cbv zeta. unfold build_backup.
  rewrite !append_assoc. reflexivity.
Qed.

(** C2, amended: for every payload, every UUID and every bundle name
    [stem.ext] whose stem has no dot, the builder gives exactly eight
    entries: the directories "", "Library" and "Library/Preferences" of
    "RootDomain"; the file "Library/Preferences/temp" of "RootDomain",
    owner and group 33, holding the payload, inode 0; a directory with
    an empty relative path whose domain is "SysContainerDomain-", eight
    "../", "var/backup/var/containers/Bundle/Application/UUID/stem.ext";
    an empty file, again with an empty relative path, whose domain is
    that domain followed by "/" and the stem; an empty file owned by
    501 whose domain is "SysContainerDomain-", eight "../",
    "var/.backup.i/var/root/Library/Preferences/temp"; and last an empty
    file whose domain is "SysContainerDomain-", eight "../",
    "crash_on_purpose". *)
Theorem manifest_entries (helper_contents : bytes) (stem ext app_uuid : string) :
  PyStr.lacks "." stem = true ->
  let app := stem ++ "." ++ ext in
  let container :=
    "SysContainerDomain-" ++ up8
      ++ "var/backup/var/containers/Bundle/Application/" ++ app_uuid ++ "/" ++ app in
  build_backup helper_contents app app_uuid =
    [ Directory "" "RootDomain" None None;
      Directory "Library" "RootDomain" None None;
      Directory "Library/Preferences" "RootDomain" None None;
      ConcreteFile "Library/Preferences/temp" "RootDomain"
        (Some 33%Z) (Some 33%Z) helper_contents (Some 0%Z);
      Directory "" container (Some 33%Z) (Some 33%Z);
      ConcreteFile "" (container ++ "/" ++ stem)
        (Some 33%Z) (Some 33%Z) [] (Some 0%Z);
      ConcreteFile ""
        ("SysContainerDomain-" ++ up8 ++ "var/.backup.i/var/root/Library/Preferences/temp")
        (Some 501%Z) (Some 501%Z) [] None;
      ConcreteFile "" ("SysContainerDomain-" ++ up8 ++ "crash_on_purpose")
        None None [] None ].
Proof.
  intros H app container.
  rewrite (build_backup_entries helper_contents app app_uuid).
  subst container app. cbv zeta.
  now rewrite (split_first_stem stem ext H).
Qed.

(** C2 as stated fails: the sixth entry of the manifest for Tips.app is
    not a file of the container's domain at the relative path "Tips";
    its relative path is empty and the name is part of its domain. *)
Lemma sixth_entry_is_not_relative :
  (exists container f,
     nth_error tips_backup 4 = Some (Directory "" container (Some 33%Z) (Some 33%Z)) /\
     nth_error tips_backup 5 = Some f /\
     entry_path f = "" /\
     entry_domain f = container ++ "/Tips") /\
  ~ (exists f,
       nth_error tips_backup 5 = Some f /\
       entry_path f = "Tips" /\
       Some (entry_domain f) = option_map entry_domain (nth_error tips_backup 4)).
Proof.
  split.
  - eexists. eexists. repeat split.
  - intros [f [Hf [Hp _]]]. cbv in Hf. injection Hf as <-. discriminate Hp.
Qed.

(** ** The application resolver *)

Lemma matching_path_lower (app : string) (item : string * app_value)
    (p : Host.path) :
  matching_path app item = Some p ->
  Host.lower (Host.name p) = Host.lower app /\
  exists key path, item = (key, AppDict (Some path)) /\ p = Host.Path path.
Proof.
  destruct item as [key [|[path|]]]; unfold matching_path; simpl; try discriminate.
  destruct (String.eqb_spec (Host.lower (Host.name (Host.Path path)))
                            (Host.lower app)) as [E|E]; [|discriminate].
  intros [= <-]. split; [exact E|]. now exists key, path.
Qed.

(** One turn of the loop, when the variable [app] still reads as the
    requested name without regard to case. *)
Lemma scan_step_matching (app0 : string) (o : option Host.path) (a : string)
    (item : string * app_value) :
  Host.lower a = Host.lower app0 ->
  scan_step (o, a) item =
    match matching_path app0 item with
    | Some q => (Some q, Host.name q)
    | None => (o, a)
    end.
Proof.
  intros Ha. unfold scan_step, matching_path.
  destruct (snd item) as [|[path|]]; trivial.
  rewrite Ha. now destruct (String.eqb _ _).
Qed.

(** The loop keeps the last match. *)
Lemma scan_loop_last_match (app0 : string) (apps_json : registry) :
  forall o a,
    Host.lower a = Host.lower app0 ->
    fold_left scan_step apps_json (o, a) =
      match last_match app0 apps_json with
      | Some p => (Some p, Host.name p)
      | None => (o, a)
      end.
Proof.
  induction apps_json as [|item rest IH]; intros o a Ha;
    cbn [fold_left last_match]; trivial.
  rewrite (scan_step_matching app0 o a item Ha).
  destruct (matching_path app0 item) as [q|] eqn:Eq.
  - rewrite IH by (apply (matching_path_lower app0 item q Eq)).
    now destruct (last_match app0 rest).
  - rewrite IH by exact Ha.
    now destruct (last_match app0 rest).
Qed.

Lemma scan_apps_last_match (apps_json : registry) (app : string) :
  scan_apps apps_json app =
    match last_match app apps_json with
    | Some p => (Some p, Host.name p)
    | None => (None, app)
    end.
Proof. unfold scan_apps. now apply scan_loop_last_match. Qed.

Lemma last_match_none (app : string) (apps_json : registry) :
  last_match app apps_json = None <->
  (forall item, In item apps_json -> matching_path app item = None).
Proof.
  induction apps_json as [|item rest IH]; simpl.
  - split; [intros _ item [] | trivial].
  - destruct (last_match app rest) as [p|].
    + split; [discriminate|]. intros H.
      assert (Some p = None) as E by (apply IH; intros; apply H; now right).
      discriminate E.
    + split.
      * intros H it [<-|Hin]; trivial. now apply IH.
      * intros H. apply H. now left.
Qed.

Lemma last_match_split (app : string) (l1 l2 : registry)
    (item : string * app_value) (p : Host.path) :
  matching_path app item = Some p ->
  (forall it, In it l2 -> matching_path app it = None) ->
  last_match app (l1 ++ item :: l2)%list = Some p.
Proof.
  intros Hm Hl2. induction l1 as [|x l1 IH]; simpl.
  - apply last_match_none in Hl2. now rewrite Hl2.
  - now rewrite IH.
Qed.

Lemma last_match_in (app : string) (apps_json : registry) (p : Host.path) :
  last_match app apps_json = Some p ->
  exists item, In item apps_json /\ matching_path app item = Some p.
Proof.
  induction apps_json as [|item rest IH]; simpl; [discriminate|].
  destruct (last_match app rest) as [q|].
  - intros [= ->]. destruct IH as [it [Hin Hm]]; trivial.
    exists it. split; [now right | exact Hm].
  - intros Hm. exists item. split; [now left | exact Hm].
Qed.

Lemma resolve_app_not_found (apps_json : registry) (app : string) :
  (forall item, In item apps_json -> matching_path app item = None) ->
  resolve_app apps_json app =
    ([Secho (app_not_found app); Secho (check_app_name app)], Return AppNotFound).
Proof.
  intros H. apply last_match_none in H.
  unfold resolve_app. rewrite scan_apps_last_match, H. reflexivity.
Qed.

Lemma resolve_app_found (apps_json : registry) (app : string) (p : Host.path) :
  fst (scan_apps apps_json app) = Some p ->
  Host.lower (Host.name p) = Host.lower app /\
  resolve_app apps_json app =
    if negb (Host.mem removable_root (Host.parents p)) then
      ([Secho (not_removable (Host.name p)); Secho choose_removable],
       Return AppNotRemovable)
    else ([], Done (Host.name p, Host.name (Host.parent p))).
Proof.
  unfold resolve_app. rewrite scan_apps_last_match.
  destruct (last_match app apps_json) as [q|] eqn:E; simpl; [|discriminate].
  intros [= ->]. split.
  - destruct (last_match_in app apps_json p E) as [it [_ Hm]].
    apply (matching_path_lower app it p Hm).
  - now destruct (Host.mem removable_root (Host.parents p)).
Qed.

(** The command stops where the resolver gives up. *)
Lemma cli_resolver_gives_up (w : world) (t t' : list event) (app : string)
    (apps_json : registry) (why : gave_up) :
  check_device w = ret tt ->
  choose_app w = (t, Done app) ->
  get_apps w = inr apps_json ->
  app_resolver apps_json app = (t', Return why) ->
  cli w = ((t ++ GetApps :: t')%list, Return why).
Proof.
  unfold app_resolver. intros Hd Hc Hg Hr.
  unfold cli, prepare. rewrite Hd, Hc, Hg. simpl. rewrite Hr. reflexivity.
Qed.

(** C4, amended: the scan goes through all the entries that carry a
    path and keeps the last one whose final path segment is the
    normalized name without regard to case; when no entry matches, the
    resolver gives up with the messages of the application not found,
    and so does the command, without any later step.  This holds on
    every host: the case is that of its [lower()]. *)
Theorem resolver_keeps_last_match (apps_json : registry) (app : string) :
  (forall l1 item l2 p,
     apps_json = (l1 ++ item :: l2)%list ->
     matching_path (normalize_app app) item = Some p ->
     (forall it, In it l2 -> matching_path (normalize_app app) it = None) ->
     fst (scan_apps apps_json (normalize_app app)) = Some p) /\
  ((forall item, In item apps_json ->
      matching_path (normalize_app app) item = None) ->
   app_resolver apps_json app =
     ([Secho (app_not_found (normalize_app app));
       Secho (check_app_name (normalize_app app))],
      Return AppNotFound) /\
   forall w t,
     check_device w = ret tt ->
     choose_app w = (t, Done app) ->
     get_apps w = inr apps_json ->
     cli w =
       ((t ++ [GetApps;
               Secho (app_not_found (normalize_app app));
               Secho (check_app_name (normalize_app app))])%list,
        Return AppNotFound)).
Proof.
  split.
  - intros l1 item l2 p -> Hm Hl2.
    rewrite scan_apps_last_match.
    now rewrite (last_match_split _ l1 l2 item p Hm Hl2).
  - intros Hnone.
    assert (Hr := resolve_app_not_found apps_json (normalize_app app) Hnone).
    split; [exact Hr|].
    intros w t Hd Hc Hg.
    apply (cli_resolver_gives_up w t _ app apps_json AppNotFound Hd Hc Hg Hr).
Qed.

(** C6: when the matched path, the one the scan has kept, has not the
    path /private/var/containers/Bundle/Application among its parents,
    the resolver gives up with the messages of the application that is
    not removable, although the final segment of the path is the
    requested name without regard to case; when it has, the resolver
    succeeds; so it succeeds only for a path with that root among its
    parents.  This holds on every host. *)
Theorem resolver_requires_removable_root (apps_json : registry) (app : string)
    (p : Host.path) :
  fst (scan_apps apps_json (normalize_app app)) = Some p ->
  Host.lower (Host.name p) = Host.lower (normalize_app app) /\
  (Host.mem removable_root (Host.parents p) = false ->
   app_resolver apps_json app =
     ([Secho (not_removable (Host.name p)); Secho choose_removable],
      Return AppNotRemovable)) /\
  (Host.mem removable_root (Host.parents p) = true ->
   app_resolver apps_json app =
     ([], Done (Host.name p, Host.name (Host.parent p)))) /\
  (forall t r,
     app_resolver apps_json app = (t, Done r) ->
     Host.mem removable_root (Host.parents p) = true).
Proof.
  intros Hp. unfold app_resolver.
  destruct (resolve_app_found apps_json (normalize_app app) p Hp) as [Hl Hr].
  split; [exact Hl|]. split; [|split].
  - intros Hm. now rewrite Hr, Hm.
  - intros Hm. now rewrite Hr, Hm.
  - intros t r Hd. rewrite Hr in Hd.
    destruct (Host.mem removable_root (Host.parents p));
      [reflexivity | discriminate Hd].
Qed.

(** *** The name and the UUID *)

Lemma endswith_append (a s : string) : PyStr.endswith (a ++ s) s = true.
Proof.
  induction a as [|c a IH]; simpl.
  - destruct s; simpl; [reflexivity|].
    now rewrite Ascii.eqb_refl, String.eqb_refl.
  - rewrite IH. apply orb_true_r.
Qed.

(** C7: the resolver appends ".app" to the name exactly when the name
    does not end with it; when it succeeds, the bundle name it returns
    is the final segment of a path of the registry, as written there,
    equal to the normalized name without regard to case, and the UUID is
    the name of the parent of that path; this holds on every host.  On a
    POSIX host "Tips" against
    /private/var/containers/Bundle/Application/ABCD-1234/Tips.app gives
    Tips.app and ABCD-1234, and so does "tips" as soon as the
    lower-casing of the host sends tips.app and Tips.app to the same
    text. *)
Theorem resolver_result (apps_json : registry) (app : string) :
  (PyStr.endswith (normalize_app app) ".app" = true /\
   (PyStr.endswith app ".app" = true -> normalize_app app = app) /\
   (PyStr.endswith app ".app" = false -> normalize_app app = app ++ ".app")) /\
  (forall t bundle uuid,
     app_resolver apps_json app = (t, Done (bundle, uuid)) ->
     exists key path,
       In (key, AppDict (Some path)) apps_json /\
       bundle = Host.name (Host.Path path) /\
       Host.lower bundle = Host.lower (normalize_app app) /\
       uuid = Host.name (Host.parent (Host.Path path))) /\
  (forall fold : string -> string,
     app_resolver (host := Host.posix fold) tips_registry "Tips" =
       ([], Done ("Tips.app", "ABCD-1234")) /\
     (fold "Tips.app" = fold "tips.app" ->
      app_resolver (host := Host.posix fold) tips_registry "tips" =
        ([], Done ("Tips.app", "ABCD-1234")))).
Proof.
  split; [|split].
  - unfold normalize_app.
    destruct (PyStr.endswith app ".app") eqn:E; simpl.
    + repeat split; trivial. discriminate.
    + repeat split; trivial; [apply endswith_append | discriminate].
  - intros t bundle uuid Hd. unfold app_resolver, resolve_app in Hd.
    rewrite scan_apps_last_match in Hd.
    destruct (last_match (normalize_app app) apps_json) as [p|] eqn:E;
      [|discriminate Hd].
    destruct (Host.mem removable_root (Host.parents p)); simpl in Hd;
      [|discriminate Hd].
    injection Hd as _ <- <-.
    destruct (last_match_in _ _ _ E) as [item [Hin Hm]].
    destruct (matching_path_lower _ _ _ Hm) as [Hl [key [path [-> ->]]]].
    exists key, path. now repeat split.
  - intros fold.
    assert (Hname : PyPath.name (PyPath.Path tips_path) = "Tips.app")
      by reflexivity.
    assert (Hrun : forall a : string,
              fold "Tips.app" = fold a ->
              resolve_app (host := Host.posix fold) tips_registry a =
                ([], Done ("Tips.app", "ABCD-1234"))).
    { intros a Ha. unfold resolve_app, scan_apps, tips_registry.
      cbn [fold_left]. unfold scan_step. cbn [snd].
      change (Host.name (Host.Path tips_path))
        with (PyPath.name (PyPath.Path tips_path)).
      rewrite Hname.
      change (Host.lower "Tips.app") with (fold "Tips.app").
      change (Host.lower a) with (fold a).
      rewrite Ha, String.eqb_refl. reflexivity. }
    split.
    + apply (Hrun "Tips.app"). reflexivity.
    + intros H. apply (Hrun "tips.app"). exact H.
Qed.

(** ** The order of the manifest *)

Lemma build_backup_length (helper_contents : bytes) (app app_uuid : string) :
  length (build_backup helper_contents app app_uuid) = 8.
Proof. reflexivity. Qed.

(** No directory of the manifest is a prefix of an entry put before it. *)
Lemma no_dependent_before_directory (helper_contents : bytes)
    (app app_uuid : string) (i j : nat) (d e : BackupFile) :
  nth_error (build_backup helper_contents app app_uuid) i = Some d ->
  is_directory d = true ->
  nth_error (build_backup helper_contents app app_uuid) j = Some e ->
  j < i ->
  is_prefix (location d) (location e) = false.
Proof.
  intros Hd Hdir He Hlt.
  assert (Hi : i < 8).
  { rewrite <- (build_backup_length helper_contents app app_uuid).
    apply nth_error_Some. congruence. }
  destruct i as [|[|[|[|[|[|[|[|i]]]]]]]]; try lia;
    cbn in Hd; injection Hd as <-; try discriminate Hdir;
    destruct j as [|[|[|[|j]]]]; try lia;
    cbn in He; injection He as <-; reflexivity.
Qed.

(** C8: in every manifest of the builder, a directory whose location,
    the segments of its domain followed by those of its relative path,
    is a prefix of the location of another entry stands strictly before
    that entry; and the last entry is the one of the marker. *)
Theorem directories_precede_dependents (helper_contents : bytes)
    (app app_uuid : string) :
  (forall i j d e,
     nth_error (build_backup helper_contents app app_uuid) i = Some d ->
     is_directory d = true ->
     nth_error (build_backup helper_contents app app_uuid) j = Some e ->
     i <> j ->
     is_prefix (location d) (location e) = true ->
     i < j) /\
  last (build_backup helper_contents app app_uuid) (Directory "" "" None None) =
    ConcreteFile "" ("SysContainerDomain-" ++ up8 ++ "crash_on_purpose")
      None None [] None /\
  PyStr.endswith
    (entry_domain
       (last (build_backup helper_contents app app_uuid) (Directory "" "" None None)))
    "crash_on_purpose" = true.
Proof.
  split; [|split; reflexivity].
  intros i j d e Hd Hdir He Hne Hpre.
  destruct (Nat.lt_ge_cases i j) as [Hlt | Hge]; [exact Hlt|].
  assert (Hji : j < i) by lia.
  rewrite (no_dependent_before_directory _ _ _ i j d e Hd Hdir He Hji) in Hpre.
  discriminate Hpre.
Qed.

(** ** The restore and the exit code *)

Lemma cli_after_prepare (w : world) (t : list event) (back : Backup) :
  prepare w = (t, Done back) ->
  cli w =
    ((t ++ fst (submit_restore w back ;; reboot_device w))%list,
     snd (submit_restore w back ;; reboot_device w)).
Proof.
  intros H. unfold cli. rewrite H. unfold bind at 1.
  now destruct (submit_restore w back ;; reboot_device w).
Qed.

(** What the [try] around the restore makes of an error. *)
Lemma submit_restore_error (w : world) (back : Backup) (e : exn) :
  perform_restore w back = inl e ->
  submit_restore w back =
    if is_pymobiledevice3 e then
      if PyStr.contains "Find My" (exn_str e) then
        ([PerformRestore back false; Secho find_my_enabled; Secho disable_find_my],
         SystemExit 1%Z)
      else if PyStr.contains "crash_on_purpose" (exn_str e) then
        ([PerformRestore back false], Done tt)
      else ([PerformRestore back false], Raise e)
    else ([PerformRestore back false], Raise e).
Proof.
  intros H. unfold submit_restore, try_except, call, restore_handler. rewrite H.
  destruct (is_pymobiledevice3 e); trivial.
  destruct (PyStr.contains "Find My" (exn_str e)); trivial.
  now destruct (PyStr.contains "crash_on_purpose" (exn_str e)).
Qed.

Lemma main_of_cli (w : world) :
  startup w = None ->
  main w =
    match snd (cli w) with
    | Done _ | Return _ => (fst (cli w), SystemExit 0%Z)
    | SystemExit code => (fst (cli w), SystemExit code)
    | Raise e =>
        ((fst (cli w) ++ fst (main_handler e))%list, snd (main_handler e))
    end.
Proof.
  intros H. unfold main, invoke_cli. rewrite H.
  destruct (cli w) as [t [a|why|code|e]]; simpl;
    try (now rewrite app_nil_r); try reflexivity.
  unfold main_handler. destruct (exn_type e); reflexivity.
Qed.

(** A [return] of [cli] ends the process with the code 0. *)
Lemma main_after_return (w : world) (t : list event) (why : gave_up) :
  startup w = None ->
  cli w = (t, Return why) ->
  main w = (t, SystemExit 0%Z).
Proof. intros Hs Hc. now rewrite (main_of_cli w Hs), Hc. Qed.

(** [main] always ends with [sys.exit]. *)
Lemma main_exits (w : world) : exists code, snd (main w) = SystemExit code.
Proof.
  unfold main, invoke_cli. destruct (startup w) as [e|].
  - unfold main_handler. simpl. destruct (exn_type e); simpl; eauto.
  - destruct (cli w) as [t [a|why|code|e]]; simpl; eauto.
    unfold main_handler. destruct (exn_type e); simpl; eauto.
Qed.

(** No restart is asked for before the restore. *)
Lemma prepare_no_restart (w : world) : ~ In Restart (fst (prepare w)).
Proof.
  unfold prepare, check_device, choose_app, fetch_helper, resolve_app.
  destruct (negb (all _)); [simpl; intuition discriminate|].
  destruct (unsupported_version _ _); [simpl; intuition discriminate|].
  destruct (get_apps w) as [e|apps_json];
    destruct (negb (truthy_opt (app_option w)));
    try (simpl; intuition discriminate).
  all: simpl;
    match goal with
    | |- context [scan_apps ?r ?a] => destruct (scan_apps r a) as [[p|] a']
    end;
    try (simpl; intuition discriminate).
  all: destruct (negb (Host.mem removable_root (Host.parents p)));
    try (simpl; intuition discriminate).
  all: destruct (http_get w); simpl; intuition discriminate.
Qed.

Lemma reboot_device_ok (w : world) :
  restart w = inr tt ->
  reboot_device w =
    ([Secho rebooting; Restart; Secho reenable_find_my;
      Secho install_persistence_helper], Done tt).
Proof. intros H. unfold reboot_device. now rewrite H. Qed.

(** The command after a restore that raised [e]. *)
Lemma cli_restore_error (w : world) (t : list event) (back : Backup) (e : exn) :
  prepare w = (t, Done back) ->
  perform_restore w back = inl e ->
  cli w =
    if is_pymobiledevice3 e then
      if PyStr.contains "Find My" (exn_str e) then
        ((t ++ [PerformRestore back false; Secho find_my_enabled;
                Secho disable_find_my])%list, SystemExit 1%Z)
      else if PyStr.contains "crash_on_purpose" (exn_str e) then
        ((t ++ PerformRestore back false :: fst (reboot_device w))%list,
         snd (reboot_device w))
      else ((t ++ [PerformRestore back false])%list, Raise e)
    else ((t ++ [PerformRestore back false])%list, Raise e).
Proof.
  intros Hp Hr. rewrite (cli_after_prepare w t back Hp).
  rewrite (submit_restore_error w back e Hr).
  destruct (is_pymobiledevice3 e); trivial.
  destruct (PyStr.contains "Find My" (exn_str e)); trivial.
  destruct (PyStr.contains "crash_on_purpose" (exn_str e)); trivial.
  simpl. now destruct (reboot_device w).
Qed.

Lemma main_handler_family (e : exn) :
  is_pymobiledevice3 e = true -> snd (main_handler e) = SystemExit 1%Z.
Proof.
  unfold is_pymobiledevice3, main_handler.
  destruct (exn_type e); simpl; congruence.
Qed.

(** C3, amended: when the restore raises an error [e] of the family
    of the restore, a message with "Find My" ends the process with the
    code 1 after the two messages about the locator, with no second
    restore and no restart; otherwise a message with "crash_on_purpose"
    lets the command go on to the restart, and the process ends with the
    code 0 when the restart succeeds; otherwise [e] itself is raised
    again and the process ends with the code 1.  An error from outside
    that family is raised on as it is, whatever its message. *)
Theorem restore_outcome (w : world) (t : list event) (back : Backup) (e : exn) :
  startup w = None ->
  prepare w = (t, Done back) ->
  perform_restore w back = inl e ->
  (is_pymobiledevice3 e = true ->
   (PyStr.contains "Find My" (exn_str e) = true ->
    main w =
      ((t ++ [PerformRestore back false; Secho find_my_enabled;
              Secho disable_find_my])%list, SystemExit 1%Z)) /\
   (PyStr.contains "Find My" (exn_str e) = false ->
    PyStr.contains "crash_on_purpose" (exn_str e) = true ->
    cli w =
      ((t ++ PerformRestore back false :: fst (reboot_device w))%list,
       snd (reboot_device w)) /\
    (restart w = inr tt ->
     main w =
       ((t ++ [PerformRestore back false; Secho rebooting; Restart;
               Secho reenable_find_my; Secho install_persistence_helper])%list,
        SystemExit 0%Z))) /\
   (PyStr.contains "Find My" (exn_str e) = false ->
    PyStr.contains "crash_on_purpose" (exn_str e) = false ->
    cli w = ((t ++ [PerformRestore back false])%list, Raise e) /\
    exit_code (main w) = 1%Z)) /\
  (is_pymobiledevice3 e = false ->
   cli w = ((t ++ [PerformRestore back false])%list, Raise e)).
Proof.
  intros Hs Hp Hr.
  assert (Hc := cli_restore_error w t back e Hp Hr).
  assert (Hm := main_of_cli w Hs).
  split; [intros Hf; rewrite Hf in Hc; split; [|split]|].
  - intros Hfind. rewrite Hfind in Hc. now rewrite Hm, Hc.
  - intros Hfind Hcrash. rewrite Hfind, Hcrash in Hc. split; [exact Hc|].
    intros Hrs. rewrite (reboot_device_ok w Hrs) in Hc. now rewrite Hm, Hc.
  - intros Hfind Hcrash. rewrite Hfind, Hcrash in Hc. split; [exact Hc|].
    rewrite Hm, Hc. unfold exit_code. simpl.
    now rewrite (main_handler_family e Hf).
  - intros Hf. now rewrite Hf in Hc.
Qed.

(** C9: when the restore raises an error of its family whose message
    has both "Find My" and "crash_on_purpose", the process ends with
    the code 1 after the messages about the locator, and no restart is
    asked for: the locator is tested first. *)
Theorem find_my_checked_first (w : world) (t : list event) (back : Backup)
    (e : exn) :
  startup w = None ->
  prepare w = (t, Done back) ->
  perform_restore w back = inl e ->
  is_pymobiledevice3 e = true ->
  PyStr.contains "Find My" (exn_str e) = true ->
  PyStr.contains "crash_on_purpose" (exn_str e) = true ->
  main w =
    ((t ++ [PerformRestore back false; Secho find_my_enabled;
            Secho disable_find_my])%list, SystemExit 1%Z) /\
  exit_code (main w) = 1%Z /\
  ~ In Restart (trace (main w)).
Proof.
  intros Hs Hp Hr Hf Hfind _.
  assert (Hc := cli_restore_error w t back e Hp Hr).
  rewrite Hf, Hfind in Hc.
  assert (Hm : main w =
    ((t ++ [PerformRestore back false; Secho find_my_enabled;
            Secho disable_find_my])%list, SystemExit 1%Z))
    by (now rewrite (main_of_cli w Hs), Hc).
  split; [exact Hm|]. rewrite Hm. split; [reflexivity|].
  unfold trace. simpl. intros Hin. apply in_app_or in Hin.
  destruct Hin as [Hin | Hin].
  - apply (prepare_no_restart w). now rewrite Hp.
  - simpl in Hin. intuition discriminate.
Qed.

(** C10: an exception raised by the restore that is not of the family
    of the restore leaves [cli] as it was raised, whatever its message,
    also with "crash_on_purpose" or "Find My" in it; no restart is asked
    for and the process ends with the code 2 for a usage error and 1
    otherwise. *)
Theorem foreign_exception_propagates (w : world) (t : list event)
    (back : Backup) (e : exn) :
  startup w = None ->
  prepare w = (t, Done back) ->
  perform_restore w back = inl e ->
  is_pymobiledevice3 e = false ->
  cli w = ((t ++ [PerformRestore back false])%list, Raise e) /\
  exit_code (main w) =
    match exn_type e with UsageError => 2%Z | _ => 1%Z end /\
  ~ In Restart (trace (main w)).
Proof.
  intros Hs Hp Hr Hf.
  assert (Hc := cli_restore_error w t back e Hp Hr).
  rewrite Hf in Hc. split; [exact Hc|].
  rewrite (main_of_cli w Hs), Hc. unfold exit_code, trace, main_handler. simpl.
  split.
  - now destruct (exn_type e).
  - intros Hin. apply in_app_or in Hin. destruct Hin as [Hin | Hin].
    + apply in_app_or in Hin. destruct Hin as [Hin | Hin].
      * apply (prepare_no_restart w). now rewrite Hp.
      * simpl in Hin. intuition discriminate.
    + destruct (exn_type e); simpl in Hin; intuition discriminate.
Qed.

(** *** The exit codes *)

(** The codes of the failures that [main] or the handler of the restore
    answers with [sys.exit]: 1 for a device that is not connected, 2 for a
    usage error, 1 for any other exception. *)
Lemma main_startup_error (w : world) (e : exn) :
  startup w = Some e ->
  exit_code (main w) =
    match exn_type e with UsageError => 2%Z | _ => 1%Z end.
Proof.
  intros H. unfold main, invoke_cli. rewrite H.
  unfold try_except, raise, main_handler.
  destruct (exn_type e); reflexivity.
Qed.

(** * Further properties *)

(** ** Versions and the gate *)

Lemma strip_snoc (l : list N) (x : N) :
  Version.strip_leading_zeros (l ++ [x])%list =
    match Version.strip_leading_zeros l with
    | [] => if (x =? 0)%N then [] else [x]
    | s => (s ++ [x])%list
    end.
Proof.
  induction l as [|a l IH]; simpl.
  - now destruct x.
  - destruct a as [|p]; [exact IH | reflexivity].
Qed.

(** The key of a release with one more leading number. *)
Lemma key_cons (x : N) (v : Version.version) :
  Version.key (x :: v) =
    match Version.key v with
    | [] => if (x =? 0)%N then [] else [x]
    | k => x :: k
    end.
Proof.
  unfold Version.key. simpl rev at 1. rewrite strip_snoc.
  destruct (Version.strip_leading_zeros (rev v)) as [|a s] eqn:E; simpl.
  - now destruct (x =? 0)%N.
  - rewrite rev_app_distr. simpl. destruct (rev s ++ [a])%list eqn:E'; trivial.
    destruct (rev s); discriminate E'.
Qed.

Lemma key_trailing_zero (v : Version.version) :
  Version.key (v ++ [0%N])%list = Version.key v.
Proof. unfold Version.key. now rewrite rev_app_distr. Qed.

Lemma tuple_compare_lt_trans (a : list N) :
  forall b c,
    Version.tuple_compare a b = Lt ->
    Version.tuple_compare b c = Lt ->
    Version.tuple_compare a c = Lt.
Proof.
  induction a as [|x a IH]; intros [|y b] [|z c]; simpl; try congruence.
  destruct (N.compare_spec x y) as [-> | Hxy | Hxy]; try discriminate.
  - destruct (y ?= z)%N; try congruence. apply IH.
  - intros _. destruct (N.compare_spec y z) as [-> | Hyz | Hyz]; try discriminate.
    + intros _. now apply N.compare_lt_iff in Hxy as ->.
    + intros _. assert (H : (x < z)%N) by lia.
      now apply N.compare_lt_iff in H as ->.
Qed.

Lemma version_lt_trans (u v w : Version.version) :
  Version.lt u v = true -> Version.lt v w = true -> Version.lt u w = true.
Proof.
  unfold Version.lt, Version.compare. intros H1 H2.
  destruct (Version.tuple_compare (Version.key u) (Version.key v)) eqn:E1;
    try discriminate.
  destruct (Version.tuple_compare (Version.key v) (Version.key w)) eqn:E2;
    try discriminate.
  now rewrite (tuple_compare_lt_trans _ _ _ E1 E2).
Qed.

Lemma version_le_lt_eq (v w : Version.version) :
  Version.le v w = true <-> Version.lt v w = true \/ Version.eq v w = true.
Proof.
  unfold Version.le, Version.lt, Version.eq.
  destruct (Version.compare v w); split; intros H; auto;
    try discriminate; destruct H; discriminate.
Qed.

Lemma version_trichotomy (v w : Version.version) :
  Version.lt v w = true \/ Version.eq v w = true \/ Version.lt w v = true.
Proof.
  unfold Version.lt, Version.eq. rewrite (version_compare_opp v w).
  destruct (Version.compare v w); simpl; auto.
Qed.

Lemma version_lt_asym (v w : Version.version) :
  Version.lt v w = true -> Version.lt w v = false /\ Version.eq v w = false.
Proof.
  unfold Version.lt, Version.eq. rewrite (version_compare_opp v w).
  destruct (Version.compare v w); simpl; intros H; try discriminate; auto.
Qed.

(** Equal versions compare alike with any other one. *)
Lemma version_eq_compare (v w u : Version.version) :
  Version.eq v w = true ->
  Version.compare v u = Version.compare w u /\
  Version.compare u v = Version.compare u w.
Proof.
  intros H. apply version_eq_key in H. unfold Version.compare.
  now rewrite H.
Qed.

(** X1: the versions the gate lets through are those from 15.0 up to, but
    not including, 16.7, then 16.7 itself with the build 20H18, and
    17.0. *)
Theorem version_gate_ranges (v : Version.version) (b : string) :
  version_gate v b = true <->
    (Version.le [15; 0]%N v = true /\ Version.lt v [16; 7]%N = true) \/
    (Version.eq v [16; 7]%N = true /\ b = "20H18") \/
    Version.eq v [17; 0]%N = true.
Proof.
  rewrite version_gate_window. split.
  - intros [[H15 H17] [Hgap Hrc]].
    apply version_le_lt_eq in H17. destruct H17 as [H17 | H17]; [|auto].
    destruct (version_trichotomy v [16; 7]%N) as [H | [H | H]].
    + left. now split.
    + right. left. split; [exact H|].
      destruct Hrc as [Hrc | Hrc]; [congruence | exact Hrc].
    + exfalso. apply Hgap. now split.
  - intros [[H15 H167] | [[H167 Hb] | H17]].
    + destruct (version_lt_asym _ _ H167) as [Hn He].
      repeat split; trivial.
      * apply version_le_lt_eq. left.
        apply (version_lt_trans v [16; 7]%N [17; 0]%N H167). reflexivity.
      * intros [Ha _]. congruence.
      * now left.
    + destruct (version_eq_compare v [16; 7]%N [15; 0]%N H167) as [_ E15].
      destruct (version_eq_compare v [16; 7]%N [17; 0]%N H167) as [E17 _].
      destruct (version_eq_compare v [16; 7]%N [16; 7]%N H167) as [_ E167].
      unfold Version.le, Version.lt. rewrite E15, E17, E167.
      repeat split; trivial.
      * intros [Ha _]. discriminate Ha.
      * now right.
    + destruct (version_eq_compare v [17; 0]%N [15; 0]%N H17) as [_ E15].
      destruct (version_eq_compare v [17; 0]%N [17; 0]%N H17) as [E17 _].
      destruct (version_eq_compare v [17; 0]%N [16; 7]%N H17) as [E167 _].
      unfold Version.le, Version.lt, Version.eq. rewrite E15, E17, E167.
      repeat split; trivial.
      * intros [_ Hb]. discriminate Hb.
      * now left.
Qed.

Lemma key_trailing_zeros (n : nat) :
  forall v : Version.version,
    Version.key (v ++ repeat 0%N n)%list = Version.key v.
Proof.
  induction n as [|n IH]; intros v; simpl.
  - now rewrite app_nil_r.
  - change (v ++ 0%N :: repeat 0%N n)%list
      with (v ++ [0%N] ++ repeat 0%N n)%list.
    now rewrite app_assoc, IH, key_trailing_zero.
Qed.

(** X2: the gate does not see zeros at the end of a version: 16.7 and
    16.7.0.0 are let through or refused alike. *)
Theorem version_gate_trailing_zeros (v : Version.version) (n : nat) (b : string) :
  version_gate (v ++ repeat 0%N n)%list b = version_gate v b.
Proof.
  unfold version_gate, unsupported_version,
    Version.lt, Version.gt, Version.eq, Version.compare.
  now rewrite key_trailing_zeros.
Qed.

Ltac by_numbers :=
  unfold version_gate, unsupported_version,
    Version.lt, Version.gt, Version.eq, Version.compare;
  rewrite !key_cons;
  match goal with
  | |- context [Version.key ?r] => destruct (Version.key r) as [|? ?]
  end;
  repeat match goal with
         | |- context [(?a =? ?b)%N] => destruct (N.eqb_spec a b); try lia
         end;
  cbn -[N.compare];
  repeat match goal with
         | |- context [(?a ?= ?b)%N] =>
             destruct (N.compare_spec a b); try lia; cbn -[N.compare]
         end;
  try reflexivity.

(** X3: read by its numbers, a version 15.x or 16.0 to 16.6.x passes the
    gate with any build; a version below 15, a 16.8 or later 16.x, and
    a version from 18 on are refused with any build. *)
Theorem version_gate_by_numbers (m x : N) (rest : list N) (b : string) :
  (m = 15%N -> version_gate (m :: rest) b = true) /\
  (m = 16%N -> (x <= 6)%N -> version_gate (m :: x :: rest) b = true) /\
  ((m <= 14)%N -> version_gate (m :: rest) b = false) /\
  (m = 16%N -> (8 <= x)%N -> version_gate (m :: x :: rest) b = false) /\
  ((18 <= m)%N -> version_gate (m :: rest) b = false).
Proof.
  repeat split.
  - intros ->. by_numbers.
  - intros -> Hx. by_numbers.
  - intros Hm. by_numbers.
  - intros -> Hx. by_numbers.
  - intros Hm. by_numbers.
Qed.

Lemma key_nil_iff (v : Version.version) :
  Version.key v = [] <-> (forall x, In x v -> x = 0%N).
Proof.
  induction v as [|a v IH].
  - split; [intros _ x [] | reflexivity].
  - rewrite key_cons. destruct (Version.key v) as [|k0 k].
    + destruct (N.eqb_spec a 0) as [-> | Ha].
      * split; [|reflexivity]. intros _ x [<- | Hx]; [reflexivity|].
        now apply IH.
      * split; [discriminate|]. intros H. exfalso. apply Ha, H. now left.
    + split; [discriminate|]. intros H.
      assert (E : k0 :: k = []) by (apply IH; intros x Hx; apply H; now right).
      discriminate E.
Qed.

(** X4: of the versions 17.x only 17.0, with zeros after it or not,
    passes the gate; of the versions 16.7.x only 16.7 does, and only with
    the build 20H18. *)
Theorem version_gate_point_releases (rest : list N) (b : string) :
  (version_gate (17 :: rest)%N b = true <->
     (forall x, In x rest -> x = 0%N)) /\
  (version_gate (16 :: 7 :: rest)%N b = true <->
     (forall x, In x rest -> x = 0%N) /\ b = "20H18").
Proof.
  rewrite <- key_nil_iff.
  unfold version_gate, unsupported_version,
    Version.lt, Version.gt, Version.eq, Version.compare.
  rewrite !key_cons. destruct (Version.key rest) as [|k0 k]; simpl.
  - split; [tauto|].
    rewrite negb_involutive, String.eqb_eq. tauto.
  - split; split; try discriminate. intros [H _]. discriminate H.
Qed.

(** ** The steps of the command *)

Lemma choose_app_done (w : world) :
  choose_app w =
    if truthy_opt (app_option w) then ([], Done (unwrap (app_option w)))
    else ([Prompt], Done (prompt_reply w)).
Proof. unfold choose_app. now destruct (truthy_opt (app_option w)). Qed.

(** The three ways the resolver ends. *)
Lemma resolve_app_cases (apps_json : registry) (app : string) :
  (exists a, resolve_app apps_json app =
     ([Secho (app_not_found a); Secho (check_app_name a)], Return AppNotFound)) \/
  (exists a, resolve_app apps_json app =
     ([Secho (not_removable a); Secho choose_removable], Return AppNotRemovable)) \/
  (exists bundle uuid, resolve_app apps_json app = ([], Done (bundle, uuid))).
Proof.
  unfold resolve_app. destruct (scan_apps apps_json app) as [[p|] a].
  - destruct (Host.mem removable_root (Host.parents p)); simpl.
    + right. right. do 2 eexists. reflexivity.
    + right. left. eexists. reflexivity.
  - left. eexists. reflexivity.
Qed.

(** Every run of [prepare] is one of the six ways. *)
Lemma prepare_prepared (w : world) : prepared w (prepare w).
Proof.
  unfold prepare, check_device.
  fold (device_info_complete w).
  destruct (device_info_complete w) eqn:Hinfo; simpl;
    [|now apply prepared_no_info].
  destruct (unsupported_version _ _) eqn:Hv; simpl;
    [now apply prepared_unsupported|].
  assert (Hc := choose_app_done w).
  destruct (choose_app w) as [tp [app| | |]] eqn:Ec;
    try (destruct (truthy_opt (app_option w)); discriminate Hc).
  clear Hc. simpl.
  destruct (get_apps w) as [e|apps_json] eqn:Hg; simpl.
  - now apply (prepared_registry_error w tp app e).
  - destruct (resolve_app_cases apps_json (normalize_app app))
      as [[a Hr] | [[a Hr] | [bundle [uuid Hr]]]]; rewrite Hr; simpl.
    + apply (prepared_resolver_gave_up w tp _ app apps_json AppNotFound);
        auto.
    + apply (prepared_resolver_gave_up w tp _ app apps_json AppNotRemovable);
        auto.
    + unfold fetch_helper. destruct (http_get w) as [content|] eqn:Hh; simpl.
      * now apply (prepared_ready w tp app bundle uuid apps_json content).
      * now apply (prepared_download_failed w tp app bundle uuid apps_json).
Qed.

Lemma submit_restore_ok (w : world) (back : Backup) :
  perform_restore w back = inr tt ->
  submit_restore w back = ([PerformRestore back false], Done tt).
Proof.
  intros H. unfold submit_restore, try_except, call. now rewrite H.
Qed.

(** The restart and what follows it. *)
Lemma reboot_device_cases (w : world) :
  reboot_device w =
    match restart w with
    | inr _ =>
        ([Secho rebooting; Restart; Secho reenable_find_my;
          Secho install_persistence_helper], Done tt)
    | inl e => ([Secho rebooting; Restart], Raise e)
    end.
Proof. unfold reboot_device. now destruct (restart w) as [e|[]]. Qed.

(** From the restore to the end of [cli]. *)
Lemma restore_and_reboot (w : world) (back : Backup) :
  submit_restore w back ;; reboot_device w =
    if restore_accepted (perform_restore w back) then
      (PerformRestore back false :: fst (reboot_device w),
       snd (reboot_device w))
    else
      match perform_restore w back with
      | inl e =>
          if is_pymobiledevice3 e && PyStr.contains "Find My" (exn_str e) then
            ([PerformRestore back false; Secho find_my_enabled;
              Secho disable_find_my], SystemExit 1%Z)
          else ([PerformRestore back false], Raise e)
      | inr _ => ([PerformRestore back false], Done tt)
      end.
Proof.
  destruct (perform_restore w back) as [e|[]] eqn:Hr.
  - rewrite (submit_restore_error w back e Hr). unfold restore_accepted.
    destruct (is_pymobiledevice3 e); simpl; trivial.
    destruct (PyStr.contains "Find My" (exn_str e)); simpl; trivial.
    destruct (PyStr.contains "crash_on_purpose" (exn_str e)); simpl; trivial.
    now destruct (reboot_device w).
  - rewrite (submit_restore_ok w back Hr). simpl.
    now destruct (reboot_device w).
Qed.

(** [cli] in terms of its first part. *)
Lemma cli_of_prepare (w : world) :
  cli w =
    match snd (prepare w) with
    | Done back =>
        ((fst (prepare w)
            ++ fst (submit_restore w back ;; reboot_device w))%list,
         snd (submit_restore w back ;; reboot_device w))
    | Return why => (fst (prepare w), Return why)
    | SystemExit code => (fst (prepare w), SystemExit code)
    | Raise e => (fst (prepare w), Raise e)
    end.
Proof.
  destruct (prepare w) as [t [back|why|code|e]] eqn:Hp; simpl;
    try (unfold cli; now rewrite Hp).
  apply (cli_after_prepare w t back Hp).
Qed.

(** After the backup is built, [cli] never ends with a [return]. *)
Lemma restore_and_reboot_no_return (w : world) (back : Backup) (why : gave_up) :
  snd (submit_restore w back ;; reboot_device w) <> Return why.
Proof.
  rewrite restore_and_reboot, reboot_device_cases.
  destruct (restore_accepted (perform_restore w back)).
  - destruct (restart w); discriminate.
  - destruct (perform_restore w back) as [e|]; [|discriminate].
    destruct (is_pymobiledevice3 e && PyStr.contains "Find My" (exn_str e));
      discriminate.
Qed.

(** A [return] of [cli] is a [return] of its first part, with the same
    trace. *)
Lemma cli_return (w : world) (why : gave_up) :
  snd (cli w) = Return why <-> snd (prepare w) = Return why.
Proof.
  rewrite cli_of_prepare.
  destruct (snd (prepare w)) as [back|why'|code|e]; simpl.
  - split; [|discriminate]. intros H. exfalso.
    exact (restore_and_reboot_no_return w back why H).
  - split; intros [= ->]; reflexivity.
  - split; discriminate.
  - split; discriminate.
Qed.

(** ** The description of the device *)

Lemma device_info_complete_false (w : world) :
  device_info_complete w = false <->
  truthy_opt (DeviceClass w) = false \/ truthy_opt (BuildVersion w) = false.
Proof.
  unfold device_info_complete, all. simpl.
  destruct (truthy_opt (DeviceClass w)), (truthy_opt (BuildVersion w));
    simpl; split; auto; intros [H | H]; discriminate H.
Qed.

(** X5: [cli] ends with the two messages about the device information,
    and with nothing else, exactly when the class or the build of the
    device is missing or empty; the version is not looked at then. *)
Theorem incomplete_device_info (w : world) :
  truthy_opt (DeviceClass w) = false \/ truthy_opt (BuildVersion w) = false <->
  cli w =
    ([Secho cannot_get_device_info; Secho ensure_connected],
     Return DeviceInfoUnavailable).
Proof.
  rewrite <- device_info_complete_false. split.
  - intros H. unfold cli, prepare, check_device.
    fold (device_info_complete w). now rewrite H.
  - intros H.
    assert (Hr : snd (cli w) = Return DeviceInfoUnavailable) by now rewrite H.
    apply cli_return in Hr.
    assert (Hp := prepare_prepared w).
    destruct (prepare w) as [t r]. simpl in Hr. subst r.
    inversion Hp; subst; trivial.
    match goal with
    | Hw : _ = AppNotFound \/ _ = AppNotRemovable |- _ =>
        destruct Hw; discriminate
    end.
Qed.

(** X6: the class of the device decides nothing once it is not empty:
    two devices with the same build and version pass or fail the two
    tests alike, whether their classes are in the table of the system
    names or not. *)
Theorem device_class_not_gated (w w' : world) :
  truthy_opt (DeviceClass w) = true ->
  truthy_opt (DeviceClass w') = true ->
  BuildVersion w = BuildVersion w' ->
  product_version w = product_version w' ->
  snd (check_device w) = snd (check_device w').
Proof.
  intros Hc Hc' Hb Hv. unfold check_device, all. simpl.
  rewrite Hc, Hc', Hb, Hv.
  destruct (truthy_opt (BuildVersion w')); simpl; trivial.
  now destruct (unsupported_version _ _).
Qed.

(** ** The events of a run *)

(** Before the backup is built, nothing is restored or restarted. *)
Lemma prepare_quiet (w : world) :
  Forall (fun ev => is_restore ev = false /\ is_restart ev = false)
         (fst (prepare w)).
Proof.
  unfold prepare, check_device, choose_app, fetch_helper, resolve_app.
  destruct (negb (all _)); [simpl; repeat constructor|].
  destruct (unsupported_version _ _); [simpl; repeat constructor|].
  destruct (get_apps w) as [e|apps_json];
    destruct (negb (truthy_opt (app_option w)));
    try (simpl; repeat constructor).
  all: simpl;
    match goal with
    | |- context [scan_apps ?r ?a] => destruct (scan_apps r a) as [[p|] a']
    end;
    try (simpl; repeat constructor).
  all: destruct (negb (Host.mem removable_root (Host.parents p)));
    try (simpl; repeat constructor).
  all: destruct (http_get w); simpl; repeat constructor.
Qed.

Lemma main_handler_quiet (e : exn) :
  Forall (fun ev => is_restore ev = false /\ is_restart ev = false)
         (fst (main_handler e)).
Proof.
  unfold main_handler. destruct (exn_type e); simpl; repeat constructor.
Qed.

Lemma restores_app (a b : list event) :
  restores (a ++ b) = restores a + restores b.
Proof. unfold restores. now rewrite filter_app, length_app. Qed.

Lemma restarts_app (a b : list event) :
  restarts (a ++ b) = restarts a + restarts b.
Proof. unfold restarts. now rewrite filter_app, length_app. Qed.

Lemma quiet_counts (t : list event) :
  Forall (fun ev => is_restore ev = false /\ is_restart ev = false) t ->
  restores t = 0 /\ restarts t = 0.
Proof.
  unfold restores, restarts. induction 1 as [|ev t [Hr Hs] _ [IH1 IH2]]; simpl.
  - now split.
  - now rewrite Hr, Hs.
Qed.

Lemma quiet_not_in (t : list event) (ev : event) :
  Forall (fun ev => is_restore ev = false /\ is_restart ev = false) t ->
  In ev t -> is_restore ev = false /\ is_restart ev = false.
Proof. intros H Hin. rewrite Forall_forall in H. now apply H. Qed.

(** The trace of [main] when [cli] is entered. *)
Lemma main_trace (w : world) :
  startup w = None ->
  exists tail,
    trace (main w) = (fst (cli w) ++ tail)%list /\
    Forall (fun ev => is_restore ev = false /\ is_restart ev = false) tail.
Proof.
  intros Hs. rewrite (main_of_cli w Hs). unfold trace.
  destruct (snd (cli w)) as [a|why|code|e]; simpl.
  - exists []. now rewrite app_nil_r.
  - exists []. now rewrite app_nil_r.
  - exists []. now rewrite app_nil_r.
  - exists (fst (main_handler e)). split; [reflexivity|].
    apply main_handler_quiet.
Qed.

Lemma main_trace_startup (w : world) (e : exn) :
  startup w = Some e ->
  main w = (fst (main_handler e), snd (main_handler e)) /\
  Forall (fun ev => is_restore ev = false /\ is_restart ev = false)
         (trace (main w)).
Proof.
  intros Hs.
  assert (E : main w = (fst (main_handler e), snd (main_handler e))).
  { unfold main, invoke_cli. rewrite Hs. unfold try_except, raise, main_handler.
    destruct (exn_type e); reflexivity. }
  split; [exact E|]. rewrite E. apply main_handler_quiet.
Qed.

(** The trace of [cli] once the backup is built. *)
Lemma cli_trace_after_prepare (w : world) (back : Backup) :
  snd (prepare w) = Done back ->
  fst (cli w) =
    (fst (prepare w) ++
     PerformRestore back false ::
       (if restore_accepted (perform_restore w back) then fst (reboot_device w)
        else match perform_restore w back with
             | inl e =>
                 if is_pymobiledevice3 e
                    && PyStr.contains "Find My" (exn_str e)
                 then [Secho find_my_enabled; Secho disable_find_my]
                 else []
             | inr _ => []
             end))%list.
Proof.
  intros Hp. rewrite cli_of_prepare, Hp, restore_and_reboot. simpl.
  destruct (restore_accepted (perform_restore w back)); trivial.
  destruct (perform_restore w back) as [e|]; trivial.
  now destruct (is_pymobiledevice3 e && PyStr.contains "Find My" (exn_str e)).
Qed.

Lemma cli_trace_before_prepared (w : world) :
  (forall back, snd (prepare w) <> Done back) ->
  fst (cli w) = fst (prepare w).
Proof.
  intros H. rewrite cli_of_prepare.
  destruct (snd (prepare w)) as [back| | |]; trivial.
  now destruct (H back).
Qed.

(** What has happened when the backup is built. *)
Lemma prepare_done (w : world) (back : Backup) :
  snd (prepare w) = Done back ->
  device_info_complete w = true /\
  version_gate (product_version w) (unwrap (BuildVersion w)) = true /\
  exists tp app apps_json bundle uuid content,
    choose_app w = (tp, Done app) /\
    get_apps w = inr apps_json /\
    app_resolver apps_json app = ([], Done (bundle, uuid)) /\
    http_get w = Some content /\
    back = build_backup content bundle uuid /\
    fst (prepare w) =
      (tp ++ [GetApps; HttpGet; Secho (replacing bundle uuid)])%list.
Proof.
  intros Hd. assert (Hp := prepare_prepared w).
  destruct (prepare w) as [t r]. simpl in Hd. subst r.
  inversion Hp; subst.
  split; [assumption|]. split.
  - unfold version_gate.
    match goal with H : unsupported_version _ _ = false |- _ => now rewrite H end.
  - exists tp, app, apps_json, bundle, uuid, content. repeat split; assumption.
Qed.

(** X7: in a whole run at most one restore is submitted; it asks for no
    reboot, and its backup is the one built from the downloaded bytes
    and from the name and the UUID the resolver gave, on a device that
    passed the gate. *)
Theorem restore_once_as_prepared (w : world) :
  restores (trace (main w)) <= 1 /\
  forall back reboot,
    In (PerformRestore back reboot) (trace (main w)) ->
    reboot = false /\
    startup w = None /\
    version_gate (product_version w) (unwrap (BuildVersion w)) = true /\
    exists tp app apps_json bundle uuid content,
      choose_app w = (tp, Done app) /\
      get_apps w = inr apps_json /\
      app_resolver apps_json app = ([], Done (bundle, uuid)) /\
      http_get w = Some content /\
      back = build_backup content bundle uuid.
Proof.
  destruct (startup w) as [e|] eqn:Hs.
  - destruct (main_trace_startup w e Hs) as [_ Hq]. split.
    + rewrite (proj1 (quiet_counts _ Hq)). lia.
    + intros back reboot Hin.
      destruct (quiet_not_in _ _ Hq Hin) as [Hr _]. discriminate Hr.
  - destruct (main_trace w Hs) as [tail [Ht Hq]]. rewrite Ht.
    assert (Hpq := prepare_quiet w).
    destruct (snd (prepare w)) as [back0|why|code|e] eqn:Hp.
    + rewrite (cli_trace_after_prepare w back0 Hp).
      set (rest := if restore_accepted (perform_restore w back0)
                   then fst (reboot_device w) else _).
      assert (Hrest : restores rest = 0 /\
                      forall b r, ~ In (PerformRestore b r) rest).
      { subst rest. rewrite reboot_device_cases.
        destruct (restore_accepted (perform_restore w back0)).
        - destruct (restart w); split; try reflexivity;
            intros b r Hin; simpl in Hin; intuition discriminate.
        - destruct (perform_restore w back0) as [e|];
            [destruct (is_pymobiledevice3 e
                       && PyStr.contains "Find My" (exn_str e))|];
            split; try reflexivity;
            intros b r Hin; simpl in Hin; intuition discriminate. }
      destruct Hrest as [Hrest0 Hrest_in]. split.
      * rewrite !restores_app.
        change (PerformRestore back0 false :: rest)
          with ([PerformRestore back0 false] ++ rest)%list.
        rewrite restores_app, Hrest0.
        rewrite (proj1 (quiet_counts _ Hpq)), (proj1 (quiet_counts _ Hq)).
        simpl. lia.
      * intros back reboot Hin.
        apply in_app_or in Hin. destruct Hin as [Hin | Hin].
        -- apply in_app_or in Hin. destruct Hin as [Hin | Hin].
           ++ destruct (quiet_not_in _ _ Hpq Hin) as [Hr _]. discriminate Hr.
           ++ destruct Hin as [Hin | Hin];
                [|now destruct (Hrest_in back reboot)].
              injection Hin as <- <-.
              destruct (prepare_done w back0 Hp)
                as [_ [Hg [tp [app [reg [bundle [uuid [content
                     [H1 [H2 [H3 [H4 [H5 _]]]]]]]]]]]]].
              repeat split; trivial.
              exists tp, app, reg, bundle, uuid, content. now repeat split.
        -- destruct (quiet_not_in _ _ Hq Hin) as [Hr _]. discriminate Hr.
    + rewrite cli_trace_before_prepared by (intros b; rewrite Hp; discriminate).
      split.
      * rewrite restores_app.
        rewrite (proj1 (quiet_counts _ Hpq)), (proj1 (quiet_counts _ Hq)). lia.
      * intros back reboot Hin. apply in_app_or in Hin.
        destruct Hin as [Hin | Hin];
          [destruct (quiet_not_in _ _ Hpq Hin) as [Hr _]
          |destruct (quiet_not_in _ _ Hq Hin) as [Hr _]]; discriminate Hr.
    + rewrite cli_trace_before_prepared by (intros b; rewrite Hp; discriminate).
      split.
      * rewrite restores_app.
        rewrite (proj1 (quiet_counts _ Hpq)), (proj1 (quiet_counts _ Hq)). lia.
      * intros back reboot Hin. apply in_app_or in Hin.
        destruct Hin as [Hin | Hin];
          [destruct (quiet_not_in _ _ Hpq Hin) as [Hr _]
          |destruct (quiet_not_in _ _ Hq Hin) as [Hr _]]; discriminate Hr.
    + rewrite cli_trace_before_prepared by (intros b; rewrite Hp; discriminate).
      split.
      * rewrite restores_app.
        rewrite (proj1 (quiet_counts _ Hpq)), (proj1 (quiet_counts _ Hq)). lia.
      * intros back reboot Hin. apply in_app_or in Hin.
        destruct Hin as [Hin | Hin];
          [destruct (quiet_not_in _ _ Hpq Hin) as [Hr _]
          |destruct (quiet_not_in _ _ Hq Hin) as [Hr _]]; discriminate Hr.
Qed.

(** The whole trace of [main] when the restore is accepted. *)
Lemma main_trace_accepted (w : world) (back : Backup) :
  startup w = None ->
  snd (prepare w) = Done back ->
  restore_accepted (perform_restore w back) = true ->
  exists t2,
    trace (main w) =
      (fst (prepare w) ++
       PerformRestore back false :: Secho rebooting :: Restart :: t2)%list /\
    Forall (fun ev => is_restore ev = false /\ is_restart ev = false) t2.
Proof.
  intros Hs Hp Ha. destruct (main_trace w Hs) as [tail [Ht Hq]].
  rewrite Ht, (cli_trace_after_prepare w back Hp), Ha, reboot_device_cases.
  destruct (restart w) as [e|]; simpl.
  - exists tail. split; [|exact Hq]. now rewrite <- app_assoc.
  - exists ([Secho reenable_find_my; Secho install_persistence_helper] ++ tail)%list.
    split; [now rewrite <- app_assoc|].
    apply Forall_app. split; [repeat constructor | exact Hq].
Qed.

(** The trace of [main] has no restart when the restore is not accepted
    or not reached. *)
Lemma main_trace_no_restart (w : world) :
  (startup w <> None \/
   (forall back, snd (prepare w) = Done back ->
                 restore_accepted (perform_restore w back) = false)) ->
  restarts (trace (main w)) = 0.
Proof.
  intros H. destruct (startup w) as [e|] eqn:Hs.
  - destruct (main_trace_startup w e Hs) as [_ Hq].
    apply (quiet_counts _ Hq).
  - destruct H as [H | H]; [congruence|].
    destruct (main_trace w Hs) as [tail [Ht Hq]]. rewrite Ht, restarts_app.
    rewrite (proj2 (quiet_counts _ Hq)), Nat.add_0_r.
    assert (Hpq := prepare_quiet w).
    destruct (snd (prepare w)) as [back|why|code|e] eqn:Hp.
    + rewrite (cli_trace_after_prepare w back Hp), (H back eq_refl).
      rewrite restarts_app, (proj2 (quiet_counts _ Hpq)).
      destruct (perform_restore w back) as [e|]; trivial.
      now destruct (is_pymobiledevice3 e && PyStr.contains "Find My" (exn_str e)).
    + rewrite cli_trace_before_prepared by (intros b; rewrite Hp; discriminate).
      apply (quiet_counts _ Hpq).
    + rewrite cli_trace_before_prepared by (intros b; rewrite Hp; discriminate).
      apply (quiet_counts _ Hpq).
    + rewrite cli_trace_before_prepared by (intros b; rewrite Hp; discriminate).
      apply (quiet_counts _ Hpq).
Qed.

Lemma in_restarts (t : list event) :
  In Restart t -> restarts t <> 0.
Proof.
  unfold restarts. induction t as [|ev t IH]; simpl; [tauto|].
  intros [-> | Hin]; simpl; [discriminate|].
  destruct (is_restart ev); simpl; [discriminate | now apply IH].
Qed.

(** X8: the device is asked to restart exactly when [cli] was entered,
    the backup was built and the restore ended without error or with the
    error taken as the expected one; the restart then comes right after
    the restore and the message of the reboot, and only once. *)
Theorem restart_follows_accepted_restore (w : world) :
  (In Restart (trace (main w)) <->
   startup w = None /\
   exists back,
     snd (prepare w) = Done back /\
     restore_accepted (perform_restore w back) = true) /\
  (In Restart (trace (main w)) ->
   restarts (trace (main w)) = 1 /\
   exists back t2,
     trace (main w) =
       (fst (prepare w) ++
        PerformRestore back false :: Secho rebooting :: Restart :: t2)%list).
Proof.
  assert (Hfwd : In Restart (trace (main w)) ->
                 startup w = None /\
                 exists back,
                   snd (prepare w) = Done back /\
                   restore_accepted (perform_restore w back) = true).
  { intros Hin. apply in_restarts in Hin.
    destruct (startup w) as [e|] eqn:Hs.
    - exfalso. apply Hin, main_trace_no_restart. left. congruence.
    - split; [reflexivity|].
      destruct (snd (prepare w)) as [back|why|code|e] eqn:Hp.
      + exists back. split; [reflexivity|].
        destruct (restore_accepted (perform_restore w back)) eqn:Ha; trivial.
        exfalso. apply Hin, main_trace_no_restart. right.
        intros b Hb. rewrite Hp in Hb. injection Hb as <-. exact Ha.
      + exfalso. apply Hin, main_trace_no_restart. right.
        intros b Hb. rewrite Hp in Hb. discriminate Hb.
      + exfalso. apply Hin, main_trace_no_restart. right.
        intros b Hb. rewrite Hp in Hb. discriminate Hb.
      + exfalso. apply Hin, main_trace_no_restart. right.
        intros b Hb. rewrite Hp in Hb. discriminate Hb. }
  split; [split; [exact Hfwd|]|].
  - intros [Hs [back [Hp Ha]]].
    destruct (main_trace_accepted w back Hs Hp Ha) as [t2 [Ht _]].
    rewrite Ht. apply in_or_app. right. simpl. auto.
  - intros Hin. destruct (Hfwd Hin) as [Hs [back [Hp Ha]]].
    destruct (main_trace_accepted w back Hs Hp Ha) as [t2 [Ht Hq]].
    split; [|now exists back, t2].
    rewrite Ht, restarts_app.
    rewrite (proj2 (quiet_counts _ (prepare_quiet w))).
    change (PerformRestore back false :: Secho rebooting :: Restart :: t2)
      with ([PerformRestore back false; Secho rebooting; Restart] ++ t2)%list.
    rewrite restarts_app, (proj2 (quiet_counts _ Hq)). reflexivity.
Qed.

(** ** The end of a run *)

Lemma prepare_no_exit (w : world) (code : Z) :
  snd (prepare w) <> SystemExit code.
Proof.
  intros H. assert (Hp := prepare_prepared w).
  destruct (prepare w) as [t r]. simpl in H. subst r. inversion Hp.
Qed.

(** How [cli] ends. *)
Lemma cli_ending (w : world) :
  snd (cli w) =
    match snd (prepare w) with
    | Done back =>
        if restore_accepted (perform_restore w back) then
          match restart w with
          | inr _ => Done tt
          | inl e => Raise e
          end
        else
          match perform_restore w back with
          | inl e =>
              if is_pymobiledevice3 e && PyStr.contains "Find My" (exn_str e)
              then SystemExit 1%Z
              else Raise e
          | inr _ => Done tt
          end
    | Return why => Return why
    | SystemExit code => SystemExit code
    | Raise e => Raise e
    end.
Proof.
  rewrite cli_of_prepare.
  destruct (snd (prepare w)) as [back|why|code|e]; trivial.
  rewrite restore_and_reboot, reboot_device_cases.
  destruct (restore_accepted (perform_restore w back)).
  - now destruct (restart w).
  - destruct (perform_restore w back) as [e|]; trivial.
    now destruct (is_pymobiledevice3 e && PyStr.contains "Find My" (exn_str e)).
Qed.

Lemma main_handler_code (e : exn) :
  snd (main_handler e) =
    SystemExit (match exn_type e with UsageError => 2%Z | _ => 1%Z end).
Proof. unfold main_handler. now destruct (exn_type e). Qed.

(** How [main] ends. *)
Lemma main_ending (w : world) :
  snd (main w) =
    match startup w with
    | Some e => snd (main_handler e)
    | None =>
        match snd (cli w) with
        | Done _ | Return _ => SystemExit 0%Z
        | SystemExit code => SystemExit code
        | Raise e => snd (main_handler e)
        end
    end.
Proof.
  destruct (startup w) as [e|] eqn:Hs.
  - now rewrite (proj1 (main_trace_startup w e Hs)).
  - rewrite (main_of_cli w Hs). now destruct (snd (cli w)).
Qed.

(** X9: [main] always ends with [sys.exit], never with an exception,
    and the code is 0, 1 or 2; the code is 2 only when a usage error was
    raised, before [cli] or out of it. *)
Theorem main_exit_codes (w : world) :
  exists code,
    snd (main w) = SystemExit code /\
    (code = 0%Z \/ code = 1%Z \/ code = 2%Z) /\
    (code = 2%Z ->
     exists e, exn_type e = UsageError /\
               (startup w = Some e \/ snd (cli w) = Raise e)).
Proof.
  rewrite main_ending. destruct (startup w) as [e|] eqn:Hs.
  - rewrite main_handler_code. eexists. split; [reflexivity|].
    destruct (exn_type e) eqn:Et; split; auto; try discriminate.
    intros _. exists e. auto.
  - rewrite cli_ending.
    destruct (snd (prepare w)) as [back|why|code|e] eqn:Hp.
    + destruct (restore_accepted (perform_restore w back)).
      * destruct (restart w) as [e|].
        -- rewrite main_handler_code. eexists. split; [reflexivity|].
           destruct (exn_type e) eqn:Et; split; auto; try discriminate.
           intros _. exists e. auto.
        -- exists 0%Z. repeat split; auto. discriminate.
      * destruct (perform_restore w back) as [e|].
        -- destruct (is_pymobiledevice3 e
                     && PyStr.contains "Find My" (exn_str e)).
           ++ exists 1%Z. repeat split; auto. discriminate.
           ++ rewrite main_handler_code. eexists. split; [reflexivity|].
              destruct (exn_type e) eqn:Et; split; auto; try discriminate.
              intros _. exists e. auto.
        -- exists 0%Z. repeat split; auto. discriminate.
    + exists 0%Z. repeat split; auto. discriminate.
    + now destruct (prepare_no_exit w code).
    + rewrite main_handler_code. eexists. split; [reflexivity|].
      destruct (exn_type e) eqn:Et; split; auto; try discriminate.
      intros _. exists e. auto.
Qed.

(** X10: when the body of [cli] is entered, the process ends with the
    code 0 exactly when [cli] gave up with a plain [return] before the
    restore, or built the backup, had its restore accepted and saw the
    restart succeed. *)
Theorem exit_zero_iff (w : world) :
  startup w = None ->
  (exit_code (main w) = 0%Z <->
   (exists why, snd (prepare w) = Return why) \/
   (exists back,
      snd (prepare w) = Done back /\
      restore_accepted (perform_restore w back) = true /\
      restart w = inr tt)).
Proof.
  intros Hs. unfold exit_code. rewrite main_ending, Hs, cli_ending.
  destruct (snd (prepare w)) as [back|why|code|e] eqn:Hp.
  - destruct (restore_accepted (perform_restore w back)) eqn:Ha.
    + destruct (restart w) as [e|[]] eqn:Hr.
      * rewrite main_handler_code. split.
        -- destruct (exn_type e); discriminate.
        -- intros [[why H] | [b [Hb [_ H]]]]; discriminate.
      * split; [|reflexivity]. intros _.
        right. exists back. now repeat split.
    + destruct (perform_restore w back) as [e|] eqn:Hr;
        [|discriminate Ha].
      assert (Hno : ~ ((exists why, Done back = @Return Backup why) \/
                       (exists b, Done back = Done b /\
                          restore_accepted (perform_restore w b) = true /\
                          restart w = inr tt))).
      { intros [[why H] | [b [Hb [Hab _]]]]; [discriminate H|].
        injection Hb as <-. rewrite Hr in Hab. congruence. }
      destruct (is_pymobiledevice3 e && PyStr.contains "Find My" (exn_str e)).
      * split; [discriminate | intros H; now destruct Hno].
      * rewrite main_handler_code. split.
        -- destruct (exn_type e); discriminate.
        -- intros H; now destruct Hno.
  - split; [|reflexivity]. intros _. left. now exists why.
  - now destruct (prepare_no_exit w code).
  - rewrite main_handler_code. split.
    + destruct (exn_type e); discriminate.
    + intros [[why H] | [b [Hb _]]]; discriminate.
Qed.

(** X11: an exception raised before the body of [cli] runs ends the
    process without any step on the device: a device that is not
    connected gives one message and the code 1, a usage error its text,
    the help and the code 2, any other exception the error message, the
    traceback and the code 1. *)
Theorem startup_error (w : world) (e : exn) :
  startup w = Some e ->
  main w =
    match exn_type e with
    | NoDeviceConnectedError => ([Secho connect_device], SystemExit 1%Z)
    | UsageError =>
        ([Secho (usage (exn_str e)); Secho help], SystemExit 2%Z)
    | _ => ([Secho error_occurred; Secho (traceback e)], SystemExit 1%Z)
    end.
Proof.
  intros Hs. rewrite (proj1 (main_trace_startup w e Hs)).
  unfold main_handler. now destruct (exn_type e).
Qed.

(** X12: when the restore raises nothing at all, the command goes on as
    after the expected error: the device is restarted, and with a
    restart that succeeds the two reminders are shown and the process
    ends with the code 0. *)
Theorem restore_without_error (w : world) (back : Backup) :
  startup w = None ->
  snd (prepare w) = Done back ->
  perform_restore w back = inr tt ->
  restart w = inr tt ->
  main w =
    ((fst (prepare w) ++
      [PerformRestore back false; Secho rebooting; Restart;
       Secho reenable_find_my; Secho install_persistence_helper])%list,
     SystemExit 0%Z).
Proof.
  intros Hs Hp Hr Hrs. rewrite (main_of_cli w Hs), cli_of_prepare, Hp.
  rewrite restore_and_reboot, Hr, (reboot_device_ok w Hrs). reflexivity.
Qed.

(** X13: when the restart raises, after a restore that was accepted,
    the exception leaves [cli] as it is; the reminders are not shown and
    the process ends with the code 1, or 2 for a usage error. *)
Theorem restart_failure (w : world) (back : Backup) (e : exn) :
  startup w = None ->
  snd (prepare w) = Done back ->
  restore_accepted (perform_restore w back) = true ->
  restart w = inl e ->
  cli w =
    ((fst (prepare w) ++
      [PerformRestore back false; Secho rebooting; Restart])%list, Raise e) /\
  exit_code (main w) =
    match exn_type e with UsageError => 2%Z | _ => 1%Z end /\
  ~ In (Secho reenable_find_my) (trace (main w)).
Proof.
  intros Hs Hp Ha Hrs.
  assert (Hc : cli w =
    ((fst (prepare w) ++
      [PerformRestore back false; Secho rebooting; Restart])%list, Raise e)).
  { rewrite cli_of_prepare, Hp, restore_and_reboot, Ha, reboot_device_cases, Hrs.
    reflexivity. }
  split; [exact Hc|]. unfold exit_code, trace.
  rewrite (main_of_cli w Hs), Hc. simpl. rewrite main_handler_code.
  split; [reflexivity|].
  intros Hin. apply in_app_or in Hin. destruct Hin as [Hin | Hin].
  - apply in_app_or in Hin. destruct Hin as [Hin | Hin].
    + destruct (prepare_done w back Hp)
        as [_ [_ [tp [app [reg [bundle [uuid [content
             [H1 [_ [_ [_ [_ H6]]]]]]]]]]]]].
      rewrite H6 in Hin. apply in_app_or in Hin. destruct Hin as [Hin | Hin].
      * rewrite choose_app_done in H1.
        destruct (truthy_opt (app_option w)); injection H1 as <- _;
          simpl in Hin; intuition discriminate.
      * simpl in Hin. intuition discriminate.
    + simpl in Hin. intuition discriminate.
  - unfold main_handler in Hin.
    destruct (exn_type e); simpl in Hin; intuition discriminate.
Qed.

Lemma check_device_pass (w : world) :
  device_info_complete w = true ->
  version_gate (product_version w) (unwrap (BuildVersion w)) = true ->
  check_device w = ret tt.
Proof.
  unfold version_gate, check_device. fold (device_info_complete w).
  intros -> H. apply negb_true_iff in H. now rewrite H.
Qed.

(** X14: when the registry of the applications raises, on a device that
    passed the two tests, the exception leaves [cli] as it is right
    after the call; nothing is downloaded or restored, and the process
    ends with the code 1, or 2 for a usage error. *)
Theorem registry_error (w : world) (e : exn) :
  startup w = None ->
  device_info_complete w = true ->
  version_gate (product_version w) (unwrap (BuildVersion w)) = true ->
  get_apps w = inl e ->
  cli w = ((fst (choose_app w) ++ [GetApps])%list, Raise e) /\
  exit_code (main w) =
    match exn_type e with UsageError => 2%Z | _ => 1%Z end /\
  ~ In HttpGet (trace (main w)) /\
  restores (trace (main w)) = 0.
Proof.
  intros Hs Hi Hg Ha.
  assert (Hp : prepare w = ((fst (choose_app w) ++ [GetApps])%list, Raise e)).
  { unfold prepare. rewrite (check_device_pass w Hi Hg), choose_app_done, Ha.
    now destruct (truthy_opt (app_option w)). }
  assert (Hc : cli w = ((fst (choose_app w) ++ [GetApps])%list, Raise e)).
  { rewrite cli_of_prepare, Hp. reflexivity. }
  split; [exact Hc|]. unfold exit_code, trace.
  rewrite (main_of_cli w Hs), Hc. simpl. rewrite main_handler_code.
  split; [reflexivity|]. split.
  - rewrite choose_app_done. unfold main_handler.
    destruct (truthy_opt (app_option w)), (exn_type e); simpl;
      intuition discriminate.
  - rewrite !restores_app. rewrite choose_app_done. unfold main_handler.
    destruct (truthy_opt (app_option w)), (exn_type e); reflexivity.
Qed.

Lemma choose_app_chosen (w : world) :
  choose_app w = (fst (choose_app w), Done (chosen_app w)).
Proof.
  unfold chosen_app. rewrite choose_app_done.
  now destruct (truthy_opt (app_option w)).
Qed.

(** X15: [cli] gives up for the payload exactly when the device passed
    the two tests, the resolver found a removable application and the
    download failed; the failed download is then the last step. *)
Theorem download_failure (w : world) :
  (snd (cli w) = Return PayloadUnavailable <->
   device_info_complete w = true /\
   version_gate (product_version w) (unwrap (BuildVersion w)) = true /\
   http_get w = None /\
   exists apps_json bundle uuid,
     get_apps w = inr apps_json /\
     app_resolver apps_json (chosen_app w) = ([], Done (bundle, uuid))) /\
  (snd (cli w) = Return PayloadUnavailable ->
   cli w =
     ((fst (choose_app w) ++ [GetApps; HttpGet; Secho download_failed])%list,
      Return PayloadUnavailable)).
Proof.
  assert (Hback :
    device_info_complete w = true /\
    version_gate (product_version w) (unwrap (BuildVersion w)) = true /\
    http_get w = None /\
    (exists apps_json bundle uuid,
       get_apps w = inr apps_json /\
       app_resolver apps_json (chosen_app w) = ([], Done (bundle, uuid))) ->
    cli w =
      ((fst (choose_app w) ++ [GetApps; HttpGet; Secho download_failed])%list,
       Return PayloadUnavailable)).
  { intros [Hi [Hg [Hh [reg [bundle [uuid [Ha Hr]]]]]]].
    unfold app_resolver in Hr.
    unfold cli, prepare.
    rewrite (check_device_pass w Hi Hg), (choose_app_chosen w), Ha.
    simpl. rewrite Hr. unfold fetch_helper. rewrite Hh. reflexivity. }
  assert (Hfwd :
    snd (cli w) = Return PayloadUnavailable ->
    device_info_complete w = true /\
    version_gate (product_version w) (unwrap (BuildVersion w)) = true /\
    http_get w = None /\
    (exists apps_json bundle uuid,
       get_apps w = inr apps_json /\
       app_resolver apps_json (chosen_app w) = ([], Done (bundle, uuid)))).
  { intros H. apply cli_return in H.
    assert (Hp := prepare_prepared w).
    destruct (prepare w) as [t r]. simpl in H. subst r.
    inversion Hp; subst.
    - match goal with
      | Hw : _ = AppNotFound \/ _ = AppNotRemovable |- _ =>
          destruct Hw; discriminate
      end.
    - repeat split; trivial.
      + unfold version_gate.
        match goal with
        | Hu : unsupported_version _ _ = false |- _ => now rewrite Hu
        end.
      + exists apps_json, bundle, uuid. split; [assumption|].
        unfold chosen_app.
        match goal with
        | Hc : choose_app w = _ |- _ => rewrite Hc
        end.
        assumption. }
  split; [split; [exact Hfwd|]|].
  - intros H. now rewrite (Hback H).
  - intros H. apply Hback, Hfwd, H.
Qed.

(** ** The resolver and the shape of the registry *)

Lemma matching_path_lower_eq (a b : string) (item : string * app_value) :
  Host.lower a = Host.lower b ->
  matching_path a item = matching_path b item.
Proof. intros H. unfold matching_path. now rewrite H. Qed.

Lemma last_match_lower_eq (a b : string) (apps_json : registry) :
  Host.lower a = Host.lower b ->
  last_match a apps_json = last_match b apps_json.
Proof.
  intros H. induction apps_json as [|item rest IH]; simpl; trivial.
  now rewrite IH, (matching_path_lower_eq a b item H).
Qed.

(** X16: the resolver sees the requested name only through its
    lower-casing: two names whose normalized forms have the same
    [lower()] select the same path and end alike, with the same bundle
    name and UUID when they succeed. *)
Theorem resolver_ignores_case (apps_json : registry) (a b : string) :
  Host.lower (normalize_app a) = Host.lower (normalize_app b) ->
  fst (scan_apps apps_json (normalize_app a)) =
    fst (scan_apps apps_json (normalize_app b)) /\
  snd (app_resolver apps_json a) = snd (app_resolver apps_json b).
Proof.
  intros Hn.
  unfold app_resolver, resolve_app. rewrite !scan_apps_last_match.
  rewrite (last_match_lower_eq _ _ apps_json Hn).
  destruct (last_match (normalize_app b) apps_json) as [p|]; simpl.
  - split; [reflexivity|].
    now destruct (Host.mem removable_root (Host.parents p)).
  - now split.
Qed.

(** X17: the suffix is optional: a name that does not end with ".app"
    is resolved as the same name with ".app" after it, and normalizing
    twice changes nothing. *)
Theorem resolver_suffix_optional (apps_json : registry) (app : string) :
  normalize_app (normalize_app app) = normalize_app app /\
  (PyStr.endswith app ".app" = false ->
   app_resolver apps_json (app ++ ".app") = app_resolver apps_json app).
Proof.
  assert (Hn : forall a, PyStr.endswith a ".app" = false ->
                         normalize_app (a ++ ".app") = normalize_app a).
  { intros a Ha. unfold normalize_app.
    now rewrite (endswith_append a ".app"), Ha. }
  split.
  - unfold normalize_app at 2 3.
    destruct (PyStr.endswith app ".app") eqn:E; simpl.
    + unfold normalize_app. now rewrite E.
    + rewrite (Hn app E). unfold normalize_app. now rewrite E.
  - intros E. unfold app_resolver. now rewrite (Hn app E).
Qed.

Lemma last_match_carries_path (app : string) (apps_json : registry) :
  last_match app (filter carries_path apps_json) = last_match app apps_json.
Proof.
  induction apps_json as [|item rest IH]; simpl; trivial.
  destruct (carries_path item) eqn:E; simpl; rewrite IH; trivial.
  destruct (last_match app rest); trivial.
  unfold matching_path. unfold carries_path in E.
  now destruct (snd item) as [|[p|]].
Qed.

Lemma last_match_values (app : string) (r1 : registry) :
  forall r2, map snd r1 = map snd r2 -> last_match app r1 = last_match app r2.
Proof.
  induction r1 as [|i1 r1 IH]; intros [|i2 r2]; simpl; try discriminate; trivial.
  intros [= H1 H2]. rewrite (IH r2 H2). unfold matching_path. now rewrite H1.
Qed.

Lemma app_resolver_last_match (r1 r2 : registry) (app : string) :
  last_match (normalize_app app) r1 = last_match (normalize_app app) r2 ->
  app_resolver r1 app = app_resolver r2 app.
Proof.
  intros H. unfold app_resolver, resolve_app.
  now rewrite !scan_apps_last_match, H.
Qed.

(** X18: the entries of the registry that are no dictionaries or have
    no "Path" play no part, and neither do the bundle identifiers: the
    resolver gives the same result without those entries, and on any
    registry with the same values in the same order. *)
Theorem resolver_reads_paths_only (apps_json : registry) (app : string) :
  app_resolver (filter carries_path apps_json) app = app_resolver apps_json app /\
  (forall other : registry,
     map snd other = map snd apps_json ->
     app_resolver other app = app_resolver apps_json app).
Proof.
  split.
  - apply app_resolver_last_match, last_match_carries_path.
  - intros other H. apply app_resolver_last_match, last_match_values, H.
Qed.

(** ** The contents and the marker of the manifest *)

(** X20: the downloaded bytes are carried by one entry of the manifest
    only, the fourth, the file Library/Preferences/temp of RootDomain;
    every other entry is a directory or an empty file. *)
Theorem payload_in_one_entry (helper_contents : bytes) (app app_uuid : string)
    (i : nat) (f : BackupFile) :
  nth_error (build_backup helper_contents app app_uuid) i = Some f ->
  entry_contents f = (if Nat.eqb i 3 then helper_contents else []) /\
  (i = 3 ->
   entry_domain f = "RootDomain" /\ entry_path f = "Library/Preferences/temp").
Proof.
  intros H.
  assert (Hi : i < 8).
  { rewrite <- (build_backup_length helper_contents app app_uuid).
    apply nth_error_Some. congruence. }
  destruct i as [|[|[|[|[|[|[|[|i]]]]]]]]; try lia;
    cbn in H; injection H as <-; split; try reflexivity;
    try discriminate; intros _; split; reflexivity.
Qed.

Lemma startswith_iff (n : string) :
  forall h, PyStr.startswith h n = true <-> exists b, h = n ++ b.
Proof.
  induction n as [|c n IH]; intros h; simpl.
  - split; [intros _; now exists h | intros _; now destruct h].
  - destruct h as [|d h]; simpl.
    + split; [discriminate | intros [b Hb]; discriminate Hb].
    + rewrite andb_true_iff, IH. split.
      * intros [Hc [b ->]]. apply Ascii.eqb_eq in Hc. subst d. now exists b.
      * intros [b [= -> ->]]. split; [apply Ascii.eqb_refl | now exists b].
Qed.

(** [needle in hay]: [hay] is [a ++ needle ++ b]. *)
Lemma contains_iff (n h : string) :
  PyStr.contains n h = true <-> exists a b, h = a ++ n ++ b.
Proof.
  induction h as [|d h IH]; cbn [PyStr.contains].
  - rewrite orb_false_r, startswith_iff. split.
    + intros [b Hb]. now exists "", b.
    + intros [a [b Hab]]. destruct a as [|x a]; [|discriminate Hab].
      now exists b.
  - rewrite orb_true_iff, startswith_iff, IH. split.
    + intros [[b Hb] | [a [b ->]]].
      * now exists "", b.
      * now exists (String d a), b.
    + intros [a [b Hab]]. destruct a as [|x a].
      * left. now exists b.
      * right. injection Hab as _ ->. now exists a, b.
Qed.

Lemma contains_trans (n d m : string) :
  PyStr.contains n d = true ->
  PyStr.contains d m = true ->
  PyStr.contains n m = true.
Proof.
  rewrite !contains_iff. intros [a [b ->]] [a' [b' ->]].
  exists (a' ++ a), (b ++ b'). now rewrite !append_assoc.
Qed.

(** X21: the builder and the reading of the error agree on the marker:
    the domain of the last entry of every manifest has
    "crash_on_purpose" in it, so an error of the family of the restore
    whose message quotes that domain, and has no "Find My", is taken as
    the expected one. *)
Theorem marker_of_last_entry (helper_contents : bytes) (app app_uuid : string)
    (e : exn) :
  let terminal :=
    last (build_backup helper_contents app app_uuid) (Directory "" "" None None) in
  PyStr.contains "crash_on_purpose" (entry_domain terminal) = true /\
  (is_pymobiledevice3 e = true ->
   PyStr.contains (entry_domain terminal) (exn_str e) = true ->
   PyStr.contains "Find My" (exn_str e) = false ->
   restore_accepted (inl e) = true).
Proof.
  cbv zeta.
  assert (Hm : PyStr.contains "crash_on_purpose"
                 (entry_domain
                    (last (build_backup helper_contents app app_uuid)
                          (Directory "" "" None None))) = true)
    by reflexivity.
  split; [exact Hm|].
  intros Hf Hq Hn. unfold restore_accepted.
  now rewrite Hf, Hn, (contains_trans _ _ _ Hm Hq).
Qed.

(** ** The prompt *)

Lemma main_handler_no_prompt (e : exn) : ~ In Prompt (fst (main_handler e)).
Proof.
  unfold main_handler. destruct (exn_type e); simpl; intuition discriminate.
Qed.

(** The trace of the first part of [cli] on a device that passed the
    two tests: the choice of the name, the registry, and no prompt
    after it. *)
Lemma prepare_trace_passed (w : world) :
  device_info_complete w = true ->
  version_gate (product_version w) (unwrap (BuildVersion w)) = true ->
  exists rest,
    fst (prepare w) = (fst (choose_app w) ++ GetApps :: rest)%list /\
    ~ In Prompt rest.
Proof.
  intros Hi Hg. unfold prepare.
  rewrite (check_device_pass w Hi Hg), (choose_app_chosen w).
  cbn [fst]. unfold ret. cbn [bind].
  destruct (get_apps w) as [e|apps_json]; cbn [call bind].
  - exists []. split; [reflexivity | intros []].
  - destruct (resolve_app_cases apps_json (normalize_app (chosen_app w)))
      as [[a Hr] | [[a Hr] | [bundle [uuid Hr]]]]; rewrite Hr; cbn [bind].
    + eexists. split; [reflexivity | simpl; intuition discriminate].
    + eexists. split; [reflexivity | simpl; intuition discriminate].
    + unfold fetch_helper. destruct (http_get w); simpl.
      * eexists. split; [reflexivity | simpl; intuition discriminate].
      * eexists. split; [reflexivity | simpl; intuition discriminate].
Qed.

(** What follows the first part of [cli] has no prompt. *)
Lemma cli_trace_split (w : world) :
  exists rest, fst (cli w) = (fst (prepare w) ++ rest)%list /\ ~ In Prompt rest.
Proof.
  destruct (snd (prepare w)) as [back|why|code|e] eqn:Hp.
  - rewrite (cli_trace_after_prepare w back Hp). eexists.
    split; [reflexivity|]. rewrite reboot_device_cases.
    destruct (restore_accepted (perform_restore w back)).
    + destruct (restart w); simpl; intuition discriminate.
    + destruct (perform_restore w back) as [e|];
        [destruct (is_pymobiledevice3 e && PyStr.contains "Find My" (exn_str e))|];
        simpl; intuition discriminate.
  - exists []. rewrite app_nil_r. split; [|intros []].
    apply cli_trace_before_prepared. intros b. rewrite Hp. discriminate.
  - exists []. rewrite app_nil_r. split; [|intros []].
    apply cli_trace_before_prepared. intros b. rewrite Hp. discriminate.
  - exists []. rewrite app_nil_r. split; [|intros []].
    apply cli_trace_before_prepared. intros b. rewrite Hp. discriminate.
Qed.

Lemma prepare_not_passed_no_prompt (w : world) :
  device_info_complete w = false \/
  version_gate (product_version w) (unwrap (BuildVersion w)) = false ->
  ~ In Prompt (fst (prepare w)).
Proof.
  intros H. unfold prepare, check_device. fold (device_info_complete w).
  destruct (device_info_complete w); [|simpl; intuition discriminate].
  destruct H as [H | H]; [discriminate H|].
  unfold version_gate in H. apply negb_false_iff in H. rewrite H.
  simpl. intuition discriminate.
Qed.

(** X22: in a whole run the user is asked for the name of the
    application exactly when [cli] was entered, the device passed the
    two tests and the option --app is absent or empty; the name the
    command then works with is the answer, and otherwise the option. *)
Theorem prompt_iff (w : world) :
  (In Prompt (trace (main w)) <->
   startup w = None /\
   device_info_complete w = true /\
   version_gate (product_version w) (unwrap (BuildVersion w)) = true /\
   truthy_opt (app_option w) = false) /\
  chosen_app w =
    (if truthy_opt (app_option w) then unwrap (app_option w)
     else prompt_reply w).
Proof.
  split.
  2: { unfold chosen_app. rewrite choose_app_done.
       now destruct (truthy_opt (app_option w)). }
  destruct (startup w) as [e|] eqn:Hs.
  - destruct (main_trace_startup w e Hs) as [E _]. rewrite E. unfold trace.
    cbn [fst]. split.
    + intros Hin. now apply main_handler_no_prompt in Hin.
    + intros [H _]. discriminate H.
  - assert (Htail : exists tail,
              trace (main w) = (fst (cli w) ++ tail)%list /\ ~ In Prompt tail).
    { unfold trace. rewrite (main_of_cli w Hs).
      destruct (snd (cli w)) as [a|why|code|e]; cbn [fst].
      - exists []. rewrite app_nil_r. split; [reflexivity | intros []].
      - exists []. rewrite app_nil_r. split; [reflexivity | intros []].
      - exists []. rewrite app_nil_r. split; [reflexivity | intros []].
      - exists (fst (main_handler e)). split; [reflexivity|].
        apply main_handler_no_prompt. }
    destruct Htail as [tail [Ht Htail]].
    destruct (cli_trace_split w) as [rest [Hc Hrest]].
    assert (Hred : In Prompt (trace (main w)) <-> In Prompt (fst (prepare w))).
    { rewrite Ht, Hc. rewrite !in_app_iff. tauto. }
    rewrite Hred.
    destruct (device_info_complete w) eqn:Hi.
    + destruct (version_gate (product_version w) (unwrap (BuildVersion w)))
        eqn:Hg.
      * destruct (prepare_trace_passed w Hi Hg) as [r [Hp Hr]].
        rewrite Hp, in_app_iff, choose_app_done.
        destruct (truthy_opt (app_option w)); cbn [fst]; split.
        -- intros [[] | [H | H]]; [discriminate H | contradiction].
        -- intros [_ [_ [_ H]]]. discriminate H.
        -- intros _. now repeat split.
        -- intros _. left. now left.
      * split.
        -- intros Hin. exfalso.
           apply (prepare_not_passed_no_prompt w (or_intror Hg) Hin).
        -- intros [_ [_ [H _]]]. discriminate H.
    + split.
      * intros Hin. exfalso.
        apply (prepare_not_passed_no_prompt w (or_introl Hi) Hin).
      * intros [_ [H _]]. discriminate H.
Qed.

(** ** The name of the executable *)

Lemma split_first_cases (sep : ascii) (s : string) :
  PyStr.lacks sep (PyStr.split_first sep s) = true /\
  (s = PyStr.split_first sep s \/
   exists rest, s = PyStr.split_first sep s ++ String sep rest).
Proof.
  unfold PyStr.split_first. induction s as [|c s [IH1 IH2]]; simpl.
  - split; [reflexivity | now left].
  - destruct (Ascii.eqb_spec c sep) as [-> | Hc]; simpl.
    + split; [reflexivity|]. right. now exists s.
    + destruct (PyStr.split sep s) as [|x xs] eqn:E; simpl in *.
      * apply Ascii.eqb_neq in Hc. rewrite Hc. split; [reflexivity|].
        destruct IH2 as [-> | [rest ->]]; [now left|].
        right. now exists rest.
      * apply Ascii.eqb_neq in Hc. rewrite Hc, IH1. split; [reflexivity|].
        destruct IH2 as [IH2 | [rest IH2]].
        -- left. now rewrite <- IH2.
        -- right. exists rest. now rewrite IH2 at 1.
Qed.

(** X23: the name the manifest uses for the executable is the bundle
    name up to its first dot: it has no dot, and the bundle name is that
    name alone or that name, a dot and the rest; with several dots only
    the first part is kept. *)
Theorem executable_name_first_part (helper_contents : bytes)
    (app app_uuid : string) :
  let executable := PyStr.split_first "." app in
  PyStr.lacks "." executable = true /\
  (app = executable \/ exists rest, app = executable ++ "." ++ rest) /\
  option_map entry_domain
    (nth_error (build_backup helper_contents app app_uuid) 5) =
    Some ("SysContainerDomain-" ++ up8
            ++ "var/backup/var/containers/Bundle/Application/"
            ++ app_uuid ++ "/" ++ app ++ "/" ++ executable).
Proof.
  cbv zeta. destruct (split_first_cases "." app) as [H1 H2].
  split; [exact H1|]. split; [exact H2 | reflexivity].
Qed.

Lemma endswith_iff (s suf : string) :
  PyStr.endswith s suf = true <-> exists a, s = a ++ suf.
Proof.
  induction s as [|c s IH]; cbn [PyStr.endswith].
  - rewrite orb_false_r, String.eqb_eq. split.
    + intros <-. now exists "".
    + intros [a Ha]. destruct a; [exact Ha | discriminate Ha].
  - rewrite orb_true_iff, String.eqb_eq, IH. split.
    + intros [<- | [a ->]]; [now exists "" | now exists (String c a)].
    + intros [a Ha]. destruct a as [|x a].
      * left. exact Ha.
      * right. injection Ha as _ ->. now exists a.
Qed.

(** X24: on a host whose lower-casing keeps the dots and makes no new
    one, a bundle name the resolver returns has a dot, as the
    normalized name has, so the name of the executable is a proper part
    of it. *)
Theorem resolved_name_has_suffix (apps_json : registry) (app : string)
    (t : list event) (bundle uuid : string) :
  (forall s, PyStr.lacks "." (Host.lower s) = PyStr.lacks "." s) ->
  app_resolver apps_json app = (t, Done (bundle, uuid)) ->
  PyStr.lacks "." bundle = false /\
  PyStr.split_first "." bundle <> bundle.
Proof.
  intros Hdots Hd.
  assert (Hl : Host.lower bundle = Host.lower (normalize_app app)).
  { unfold app_resolver, resolve_app in Hd.
    rewrite scan_apps_last_match in Hd.
    destruct (last_match (normalize_app app) apps_json) as [p|] eqn:E;
      [|discriminate Hd].
    destruct (Host.mem removable_root (Host.parents p)); simpl in Hd;
      [|discriminate Hd].
    injection Hd as _ <- _.
    destruct (last_match_in _ _ _ E) as [item [_ Hm]].
    apply (matching_path_lower _ _ _ Hm). }
  assert (Hn : PyStr.lacks "." (normalize_app app) = false).
  { assert (He : PyStr.endswith (normalize_app app) ".app" = true).
    { unfold normalize_app. destruct (PyStr.endswith app ".app") eqn:E; simpl;
        [exact E | apply endswith_append]. }
    apply endswith_iff in He. destruct He as [a ->].
    clear. induction a as [|c a IH]; simpl; [reflexivity|].
    rewrite IH. apply andb_false_r. }
  assert (Hb : PyStr.lacks "." bundle = false).
  { now rewrite <- (Hdots bundle), Hl, (Hdots (normalize_app app)). }
  split; [exact Hb|].
  intros Hs. destruct (split_first_cases "." bundle) as [Hlacks _].
  rewrite Hs in Hlacks. congruence.
Qed.

(** ** Where the exits of [cli] come from *)

(** X26: [cli] calls [sys.exit] in one case only: the backup was built
    and the restore raised an error of its family with "Find My" in its
    message; the code is then 1. *)
Theorem cli_exits_only_for_find_my (w : world) (code : Z) :
  snd (cli w) = SystemExit code <->
  code = 1%Z /\
  exists back e,
    snd (prepare w) = Done back /\
    perform_restore w back = inl e /\
    is_pymobiledevice3 e = true /\
    PyStr.contains "Find My" (exn_str e) = true.
Proof.
  rewrite cli_ending.
  destruct (snd (prepare w)) as [back|why|c|e0] eqn:Hp.
  - destruct (restore_accepted (perform_restore w back)) eqn:Ha.
    + split.
      * destruct (restart w); discriminate.
      * intros [_ [b [e [Hb [Hr [Hf Hm]]]]]]. injection Hb as <-.
        rewrite Hr in Ha. unfold restore_accepted in Ha.
        rewrite Hf, Hm in Ha. discriminate Ha.
    + destruct (perform_restore w back) as [e1|] eqn:Hr.
      * destruct (is_pymobiledevice3 e1) eqn:Hf; simpl.
        -- destruct (PyStr.contains "Find My" (exn_str e1)) eqn:Hm.
           ++ split.
              ** intros [= <-]. split; [reflexivity|].
                 exists back, e1. now repeat split.
              ** intros [-> _]. reflexivity.
           ++ split; [discriminate|].
              intros [_ [b [e [Hb [Hr' [_ Hm']]]]]]. injection Hb as <-.
              rewrite Hr in Hr'. injection Hr' as <-. congruence.
        -- split; [discriminate|].
           intros [_ [b [e [Hb [Hr' [Hf' _]]]]]]. injection Hb as <-.
           rewrite Hr in Hr'. injection Hr' as <-. congruence.
      * split; [discriminate|].
        intros [_ [b [e [Hb [Hr' _]]]]]. injection Hb as <-.
        rewrite Hr in Hr'. discriminate Hr'.
  - split; [discriminate | intros [_ [b [e [Hb _]]]]; discriminate Hb].
  - now destruct (prepare_no_exit w c).
  - split; [discriminate | intros [_ [b [e [Hb _]]]]; discriminate Hb].
Qed.

End Properties.

(** * Properties on a POSIX host *)

(** ** Ancestors of a path *)

Lemma comps_eqb_eq (a : list string) :
  forall b, PyPath.comps_eqb a b = true <-> a = b.
Proof.
  induction a as [|x a IH]; destruct b as [|y b]; simpl;
    try (split; [discriminate | discriminate]); try tauto.
  rewrite andb_true_iff, String.eqb_eq, IH.
  split; [intros [-> ->]; reflexivity | intros [= -> ->]; now split].
Qed.

Lemma in_prefixes_desc (l pre : list string) :
  forall n,
    In pre (PyPath.prefixes_desc n l) <-> exists k, k < n /\ pre = firstn k l.
Proof.
  induction n as [|n IH]; simpl.
  - split; [intros [] | intros [k [Hk _]]; lia].
  - rewrite IH. split.
    + intros [<- | [k [Hk ->]]]; [exists n | exists k]; split; trivial; lia.
    + intros [k [Hk ->]].
      destruct (Nat.eq_dec k n) as [-> | Hne]; [now left | right].
      exists k. split; [lia | reflexivity].
Qed.

(** A path is among the ancestors of [p] when it has the root of [p]
    and its components are a strict prefix of those of [p]. *)
Lemma mem_parents (q p : PyPath.path) :
  PyPath.mem q (PyPath.parents p) = true <->
  PyPath.root q = PyPath.root p /\
  exists rest, rest <> [] /\ PyPath.comps p = (PyPath.comps q ++ rest)%list.
Proof.
  unfold PyPath.mem, PyPath.parents. rewrite existsb_exists. split.
  - intros [x [Hin Heq]]. apply in_map_iff in Hin.
    destruct Hin as [pre [<- Hin]].
    apply in_prefixes_desc in Hin. destruct Hin as [k [Hk ->]].
    unfold PyPath.eqb in Heq. simpl in Heq.
    apply andb_true_iff in Heq. destruct Heq as [Hr Hc].
    apply String.eqb_eq in Hr. apply comps_eqb_eq in Hc.
    split; [exact Hr|]. exists (skipn k (PyPath.comps p)). split.
    + intros E. apply (f_equal (@length string)) in E.
      rewrite length_skipn in E. simpl in E. lia.
    + rewrite Hc. symmetry. apply firstn_skipn.
  - intros [Hr [rest [Hne Hc]]].
    exists (PyPath.mkPath (PyPath.root p) (PyPath.comps q)). split.
    + apply in_map. apply in_prefixes_desc.
      exists (length (PyPath.comps q)). split.
      * rewrite Hc, length_app. destruct rest; [congruence | simpl; lia].
      * rewrite Hc. rewrite firstn_app, Nat.sub_diag, firstn_all. simpl.
        now rewrite app_nil_r.
    + unfold PyPath.eqb. simpl. apply andb_true_iff. split.
      * now apply String.eqb_eq.
      * now apply comps_eqb_eq.
Qed.

Lemma split_lacks (sep : ascii) (s : string) :
  PyStr.lacks sep s = true -> PyStr.split sep s = [s].
Proof.
  induction s as [|c s IH]; simpl; intros H; [reflexivity|].
  apply andb_true_iff in H. destruct H as [Hc Hs].
  apply negb_true_iff in Hc. now rewrite Hc, (IH Hs).
Qed.

Lemma split_join_segments (segs : list string) (n : string) :
  Forall (fun s => plain_segment s = true) segs ->
  plain_segment n = true ->
  PyStr.split "/" (join_segments segs n) = (segs ++ [n])%list.
Proof.
  intros Hs Hn. induction Hs as [|s segs Hp _ IH]; simpl.
  - apply split_lacks. unfold plain_segment in Hn.
    now apply andb_true_iff in Hn.
  - unfold plain_segment in Hp. apply andb_true_iff in Hp.
    change (s ++ "/" ++ join_segments segs n)
      with (s ++ String "/" (join_segments segs n)).
    rewrite (split_at_first "/" s _ (proj1 Hp)). now rewrite IH.
Qed.

Lemma filter_kept_plain (l : list string) :
  Forall (fun s => plain_segment s = true) l -> filter PyPath.kept l = l.
Proof.
  induction 1 as [|s l Hp _ IH]; simpl; trivial.
  unfold plain_segment in Hp. apply andb_true_iff in Hp.
  now rewrite (proj2 Hp), IH.
Qed.

(** The path of a bundle below the removable root, as [Path] reads it. *)
Lemma path_of_bundle_path (segs : list string) (n : string) :
  Forall (fun s => plain_segment s = true) segs ->
  plain_segment n = true ->
  PyPath.Path (bundle_path segs n) =
    PyPath.mkPath "/"
      (["private"; "var"; "containers"; "Bundle"; "Application"]
         ++ segs ++ [n])%list.
Proof.
  intros Hs Hn. unfold PyPath.Path, bundle_path. f_equal.
  cbn -[join_segments filter].
  rewrite (split_join_segments segs n Hs Hn).
  change (filter PyPath.kept
            ((""
              :: ["private"; "var"; "containers"; "Bundle"; "Application"])
               ++ (segs ++ [n])) =
          (["private"; "var"; "containers"; "Bundle"; "Application"]
             ++ segs ++ [n]))%list.
  rewrite filter_app. f_equal.
  apply filter_kept_plain. apply Forall_app. split; [exact Hs|].
  now constructor.
Qed.

Lemma last_app_nonempty (a b : list string) (d : string) :
  b <> [] -> last (a ++ b) d = last b d.
Proof.
  intros Hb. induction a as [|x a IH]; simpl; trivial.
  destruct (a ++ b)%list eqn:E; [|exact IH].
  destruct a, b; try discriminate E. now destruct Hb.
Qed.

(** X19: on a POSIX host, whatever its lower-casing, a bundle whose
    path lies below /private/var/containers/Bundle/Application, with any
    number of plain segments between that root and its name, is accepted
    when it is the last match, and the UUID returned is the name of its
    immediate parent: the segment before the name, or "Application"
    itself when the bundle sits directly in the root. *)
Theorem resolver_immediate_parent (fold : string -> string)
    (l1 l2 : registry) (key : string)
    (segs : list string) (n app : string) :
  Forall (fun s => plain_segment s = true) segs ->
  plain_segment n = true ->
  fold n = fold (normalize_app app) ->
  (forall it, In it l2 ->
     matching_path (host := Host.posix fold) (normalize_app app) it = None) ->
  app_resolver (host := Host.posix fold)
    (l1 ++ (key, AppDict (Some (bundle_path segs n))) :: l2)%list app =
    ([], Done (n, last ("Application" :: segs) "")).
Proof.
  intros Hs Hn Hl Hl2.
  assert (Hpath := path_of_bundle_path segs n Hs Hn).
  assert (Hname : PyPath.name (PyPath.Path (bundle_path segs n)) = n).
  { rewrite Hpath. unfold PyPath.name. cbn [PyPath.comps].
    rewrite app_assoc. apply last_last. }
  assert (Hm : matching_path (host := Host.posix fold) (normalize_app app)
                 (key, AppDict (Some (bundle_path segs n))) =
               Some (PyPath.Path (bundle_path segs n))).
  { unfold matching_path. cbn [snd].
    change (Host.name (Host.Path (bundle_path segs n)))
      with (PyPath.name (PyPath.Path (bundle_path segs n))).
    rewrite Hname.
    change (Host.lower n) with (fold n).
    change (Host.lower (normalize_app app)) with (fold (normalize_app app)).
    now rewrite Hl, String.eqb_refl. }
  unfold app_resolver, resolve_app. rewrite scan_apps_last_match.
  rewrite (last_match_split _ l1 l2 _ _ Hm Hl2).
  assert (Hmem : PyPath.mem (PyPath.Path "/private/var/containers/Bundle/Application")
                   (PyPath.parents (PyPath.Path (bundle_path segs n))) = true).
  { apply mem_parents. rewrite Hpath. split; [reflexivity|].
    exists (segs ++ [n])%list. split; [|reflexivity].
    destruct segs; discriminate. }
  change (@Host.mem (Host.posix fold) (@removable_root (Host.posix fold))
            (@Host.parents (Host.posix fold) (PyPath.Path (bundle_path segs n))))
    with (PyPath.mem (PyPath.Path "/private/var/containers/Bundle/Application")
            (PyPath.parents (PyPath.Path (bundle_path segs n)))).
  rewrite Hmem. cbn [negb].
  change (@Host.name (Host.posix fold) (PyPath.Path (bundle_path segs n)))
    with (PyPath.name (PyPath.Path (bundle_path segs n))).
  rewrite Hname. unfold ret. repeat f_equal.
  change (@Host.name (Host.posix fold)
            (@Host.parent (Host.posix fold) (PyPath.Path (bundle_path segs n))))
    with (PyPath.name (PyPath.parent (PyPath.Path (bundle_path segs n)))).
  rewrite Hpath. unfold PyPath.parent, PyPath.name. cbn [PyPath.comps].
  rewrite app_assoc, removelast_last.
  destruct segs as [|s segs']; [reflexivity|].
  change ("Application" :: s :: segs')
    with (["Application"] ++ s :: segs')%list.
  rewrite !last_app_nonempty by discriminate. reflexivity.
Qed.

(** * Runs on a POSIX host with ASCII names

    The runs below are evaluated on the POSIX host; all their names are
    ASCII, for which [str.lower] is the fold of the ASCII letters. *)

#[local] Existing Instance Host.ascii_posix.

Lemma ascii_lower_keeps_dots (s : string) :
  PyStr.lacks "." (PyStr.lower s) = PyStr.lacks "." s.
Proof.
  induction s as [|c s IH]; simpl; [reflexivity|]. rewrite IH. f_equal. f_equal.
  unfold PyStr.lower_ascii.
  destruct ((65 <=? N_of_ascii c)%N && (N_of_ascii c <=? 90)%N) eqn:E;
    [|reflexivity].
  apply andb_true_iff in E. destruct E as [E1 E2].
  apply N.leb_le in E1. apply N.leb_le in E2.
  assert (H1 : Ascii.eqb (ascii_of_N (N_of_ascii c + 32)) "." = false).
  { apply Ascii.eqb_neq. intros Heq. apply (f_equal N_of_ascii) in Heq.
    rewrite N_ascii_embedding in Heq by lia.
    change (N_of_ascii ".") with 46%N in Heq. lia. }
  assert (H2 : Ascii.eqb c "." = false).
  { apply Ascii.eqb_neq. intros Heq. subst c.
    change (N_of_ascii ".") with 46%N in E1. lia. }
  now rewrite H1, H2.
Qed.

Lemma eligibility_gate_witness :
  version_gate [16; 7]%N "20H17" = false /\
  cli (iphone [16; 7]%N "20H17" (inr tt)) =
    ([Secho (unsupported "iOS " [16; 7]%N "20H17"); Secho compatible_range],
     Return UnsupportedVersion).
Proof.
  split; [reflexivity|].
  apply (proj2 (eligibility_gate (host := Host.ascii_posix) [16; 7]%N "20H17")
               (iphone [16; 7]%N "20H17" (inr tt)));
    try reflexivity.
  discriminate.
Defined.

Lemma manifest_entries_witness :
  PyStr.lacks "." "Tips" = true /\
  nth_error (build_backup [] ("Tips" ++ "." ++ "app") "ABCD-1234") 5 =
    Some (ConcreteFile ""
            "SysContainerDomain-../../../../../../../../var/backup/var/containers/Bundle/Application/ABCD-1234/Tips.app/Tips"
            (Some 33%Z) (Some 33%Z) [] (Some 0%Z)).
Proof.
  split; [reflexivity|].
  rewrite (manifest_entries [] "Tips" "app" "ABCD-1234" eq_refl).
  reflexivity.
Defined.

Lemma resolver_keeps_last_match_witness :
  fst (scan_apps two_tips_registry (normalize_app "Tips")) =
    Some (PyPath.Path tips_path) /\
  app_resolver tips_registry "Books" =
    ([Secho (app_not_found "Books.app"); Secho (check_app_name "Books.app")],
     Return AppNotFound).
Proof.
  split.
  - apply (proj1 (resolver_keeps_last_match (host := Host.ascii_posix) two_tips_registry "Tips")
             [("com.example.builtin", AppDict (Some "/Applications/Tips.app"))]
             ("com.apple.tips", AppDict (Some tips_path)) []);
      [reflexivity | reflexivity | intros it []].
  - apply (proj2 (resolver_keeps_last_match (host := Host.ascii_posix) tips_registry "Books")).
    intros item [<-|[]]. reflexivity.
Defined.

(** C4 as stated fails: with two entries of the same bundle name, the
    scan does not select the first one. *)
Lemma resolver_skips_first_match :
  first_match (normalize_app "Tips") two_tips_registry =
    Some (PyPath.Path "/Applications/Tips.app") /\
  fst (scan_apps two_tips_registry (normalize_app "Tips")) =
    Some (PyPath.Path tips_path) /\
  fst (scan_apps two_tips_registry (normalize_app "Tips")) <>
    first_match (normalize_app "Tips") two_tips_registry.
Proof.
  repeat split. cbv. discriminate.
Qed.

Lemma resolver_requires_removable_root_witness :
  app_resolver [("com.example.builtin", AppDict (Some "/Applications/Tips.app"))]
               "tips" =
    ([Secho (not_removable "Tips.app"); Secho choose_removable],
     Return AppNotRemovable).
Proof.
  apply (proj1 (proj2 (resolver_requires_removable_root (host := Host.ascii_posix)
                         [("com.example.builtin",
                           AppDict (Some "/Applications/Tips.app"))]
                         "tips" (PyPath.Path "/Applications/Tips.app") eq_refl))).
  reflexivity.
Defined.

Lemma resolver_result_witness :
  exists key path,
    In (key, AppDict (Some path)) two_tips_registry /\
    "Tips.app" = PyPath.name (PyPath.Path path) /\
    "ABCD-1234" = PyPath.name (PyPath.parent (PyPath.Path path)).
Proof.
  destruct (proj1 (proj2 (resolver_result (host := Host.ascii_posix) two_tips_registry "TIPS"))
              [] "Tips.app" "ABCD-1234" eq_refl)
    as [key [path [Hin [Hb [_ Hu]]]]].
  exists key, path. repeat split; assumption.
Defined.

Lemma directories_precede_dependents_witness :
  is_directory (nth 4 tips_backup (Directory "" "" None None)) = true /\
  4 < 5.
Proof.
  split; [reflexivity|].
  apply (proj1 (directories_precede_dependents [] "Tips.app" "ABCD-1234") 4 5
           (Directory ""
              "SysContainerDomain-../../../../../../../../var/backup/var/containers/Bundle/Application/ABCD-1234/Tips.app"
              (Some 33%Z) (Some 33%Z))
           (ConcreteFile ""
              "SysContainerDomain-../../../../../../../../var/backup/var/containers/Bundle/Application/ABCD-1234/Tips.app/Tips"
              (Some 33%Z) (Some 33%Z) [] (Some 0%Z)));
    try reflexivity.
  discriminate.
Defined.

Lemma restore_outcome_witness :
  main (iphone [16; 6]%N "20G75"
          (inl (mkExn PyMobileDevice3Exception "crash_on_purpose"))) =
    ([GetApps; HttpGet; Secho (replacing "Tips.app" "ABCD-1234");
      PerformRestore tips_backup false; Secho rebooting; Restart;
      Secho reenable_find_my; Secho install_persistence_helper],
     SystemExit 0%Z).
Proof.
  apply (proj2 (proj1 (proj2 (proj1
           (restore_outcome (host := Host.ascii_posix)
              (iphone [16; 6]%N "20G75"
                 (inl (mkExn PyMobileDevice3Exception "crash_on_purpose")))
              [GetApps; HttpGet; Secho (replacing "Tips.app" "ABCD-1234")]
              tips_backup
              (mkExn PyMobileDevice3Exception "crash_on_purpose")
              eq_refl eq_refl eq_refl)
           eq_refl)) eq_refl eq_refl) eq_refl).
Defined.

(** C3 as stated fails twice: an error of the restore whose message has
    both markers does not lead to the restart but to the code 1, and an
    error from outside the family whose message has "Find My" is not
    answered with the messages about the locator but raised on. *)
Lemma markers_do_not_decide_alone :
  (PyStr.contains "crash_on_purpose" (exn_str both_markers) = true /\
   main (iphone [16; 6]%N "20G75" (inl both_markers)) =
     ([GetApps; HttpGet; Secho (replacing "Tips.app" "ABCD-1234");
       PerformRestore tips_backup false; Secho find_my_enabled;
       Secho disable_find_my],
      SystemExit 1%Z)) /\
  (PyStr.contains "Find My" (exn_str foreign_find_my) = true /\
   cli (iphone [16; 6]%N "20G75" (inl foreign_find_my)) =
     ([GetApps; HttpGet; Secho (replacing "Tips.app" "ABCD-1234");
       PerformRestore tips_backup false],
      Raise foreign_find_my)).
Proof. repeat split. Qed.

Lemma find_my_checked_first_witness :
  exit_code (main (iphone [16; 6]%N "20G75" (inl both_markers))) = 1%Z.
Proof.
  apply (find_my_checked_first (host := Host.ascii_posix)
           (iphone [16; 6]%N "20G75" (inl both_markers))
           [GetApps; HttpGet; Secho (replacing "Tips.app" "ABCD-1234")]
           tips_backup both_markers
           eq_refl eq_refl eq_refl eq_refl eq_refl eq_refl).
Defined.

Lemma foreign_exception_propagates_witness :
  cli (iphone [16; 6]%N "20G75"
         (inl (mkExn OtherException "crash_on_purpose"))) =
    ([GetApps; HttpGet; Secho (replacing "Tips.app" "ABCD-1234");
      PerformRestore tips_backup false],
     Raise (mkExn OtherException "crash_on_purpose")).
Proof.
  apply (proj1 (foreign_exception_propagates (host := Host.ascii_posix)
                  (iphone [16; 6]%N "20G75"
                     (inl (mkExn OtherException "crash_on_purpose")))
                  [GetApps; HttpGet; Secho (replacing "Tips.app" "ABCD-1234")]
                  tips_backup (mkExn OtherException "crash_on_purpose")
                  eq_refl eq_refl eq_refl eq_refl)).
Defined.

(** C5 fails on the code: a device with iOS 14.0 is refused with the
    messages of the unsupported version, and the process ends with the
    code 0; so it does when the description of the device is incomplete,
    when the application is not found or not removable, and when the
    download fails. *)
Theorem early_failures_exit_zero :
  main (iphone [14; 0]%N "18A373" (inr tt)) =
    ([Secho (unsupported "iOS " [14; 0]%N "18A373"); Secho compatible_range],
     SystemExit 0%Z) /\
  main (iphone_16_6 None tips_registry (Some [])) =
    ([Secho cannot_get_device_info; Secho ensure_connected], SystemExit 0%Z) /\
  main (iphone_16_6 (Some "20G75") [] (Some [])) =
    ([GetApps; Secho (app_not_found "Tips.app"); Secho (check_app_name "Tips.app")],
     SystemExit 0%Z) /\
  main (iphone_16_6 (Some "20G75")
          [("com.example.builtin", AppDict (Some "/Applications/Tips.app"))]
          (Some [])) =
    ([GetApps; Secho (not_removable "Tips.app"); Secho choose_removable],
     SystemExit 0%Z) /\
  main (iphone_16_6 (Some "20G75") tips_registry None) =
    ([GetApps; HttpGet; Secho download_failed], SystemExit 0%Z).
Proof. repeat split. Qed.

Lemma version_gate_ranges_witness :
  version_gate [15; 8; 3]%N "19H386" = true.
Proof.
  apply (proj2 (version_gate_ranges [15; 8; 3]%N "19H386")).
  left. split; reflexivity.
Defined.

Lemma version_gate_by_numbers_witness :
  version_gate [16; 5; 1]%N "20F75" = true /\
  version_gate [18; 0]%N "22A3354" = false.
Proof.
  split.
  - apply (proj1 (proj2 (version_gate_by_numbers 16 5 [1]%N "20F75")));
      [reflexivity | lia].
  - apply (proj2 (proj2 (proj2 (proj2
             (version_gate_by_numbers 18 0 [0]%N "22A3354"))))).
    lia.
Defined.

Lemma version_gate_point_releases_witness :
  version_gate [17; 0; 0]%N "21A329" = true.
Proof.
  apply (proj2 (proj1 (version_gate_point_releases [0; 0]%N "21A329"))).
  intros x [<- | [<- | []]]; reflexivity.
Defined.

Lemma incomplete_device_info_witness :
  cli (iphone_16_6 (Some "") tips_registry (Some [])) =
    ([Secho cannot_get_device_info; Secho ensure_connected],
     Return DeviceInfoUnavailable).
Proof.
  apply (proj1 (incomplete_device_info (host := Host.ascii_posix)
                  (iphone_16_6 (Some "") tips_registry (Some [])))).
  right. reflexivity.
Defined.

Lemma device_class_not_gated_witness :
  snd (check_device
         {| startup := None; app_option := None; prompt_reply := "Tips";
            DeviceClass := Some "Mac"; BuildVersion := Some "20G75";
            product_version := [16; 6]%N; get_apps := inr tips_registry;
            http_get := None; perform_restore := fun _ => inr tt;
            restart := inr tt |}) =
    Done tt.
Proof.
  match goal with
  | |- snd (check_device ?x) = _ =>
      rewrite (device_class_not_gated x (iphone [16; 6]%N "20G75" (inr tt))
                 eq_refl eq_refl eq_refl eq_refl)
  end.
  reflexivity.
Defined.

Lemma restore_once_as_prepared_witness :
  version_gate [16; 6]%N "20G75" = true.
Proof.
  assert (Hin : In (PerformRestore tips_backup false)
                   (trace (main (iphone [16; 6]%N "20G75" (inr tt))))).
  { unfold trace. simpl. do 3 right. left. reflexivity. }
  destruct (proj2 (restore_once_as_prepared (host := Host.ascii_posix) (iphone [16; 6]%N "20G75" (inr tt)))
              tips_backup false Hin) as [_ [_ [Hg _]]].
  exact Hg.
Defined.

Lemma restart_follows_accepted_restore_witness :
  In Restart
     (trace (main (iphone [16; 6]%N "20G75"
                     (inl (mkExn PyMobileDevice3Exception "crash_on_purpose"))))).
Proof.
  apply (proj2 (proj1 (restart_follows_accepted_restore (host := Host.ascii_posix)
                         (iphone [16; 6]%N "20G75"
                            (inl (mkExn PyMobileDevice3Exception
                                    "crash_on_purpose")))))).
  split; [reflexivity|]. exists tips_backup. split; reflexivity.
Defined.

Lemma main_exit_codes_witness :
  exists e, exn_type e = UsageError /\
            startup {| startup := Some (mkExn UsageError "no such option");
                       app_option := None; prompt_reply := "";
                       DeviceClass := None; BuildVersion := None;
                       product_version := []; get_apps := inr [];
                       http_get := None; perform_restore := fun _ => inr tt;
                       restart := inr tt |} = Some e.
Proof.
  match goal with
  | |- exists e, _ /\ startup ?x = _ =>
      destruct (main_exit_codes (host := Host.ascii_posix) x) as [code [Hc [_ H2]]]
  end.
  injection Hc as <-.
  destruct (H2 eq_refl) as [e [Ht [Hs | Hs]]].
  - exists e. now split.
  - discriminate Hs.
Defined.

Lemma exit_zero_iff_witness :
  exit_code (main (iphone [16; 6]%N "20G75" (inr tt))) = 0%Z.
Proof.
  apply (proj2 (exit_zero_iff (host := Host.ascii_posix) (iphone [16; 6]%N "20G75" (inr tt)) eq_refl)).
  right. exists tips_backup. now repeat split.
Defined.

Lemma startup_error_witness :
  main {| startup := Some (mkExn NoDeviceConnectedError "");
          app_option := Some "Tips"; prompt_reply := "";
          DeviceClass := Some "iPhone"; BuildVersion := Some "20G75";
          product_version := [16; 6]%N; get_apps := inr tips_registry;
          http_get := Some []; perform_restore := fun _ => inr tt;
          restart := inr tt |} =
    ([Secho connect_device], SystemExit 1%Z).
Proof.
  match goal with
  | |- main ?x = _ =>
      apply (startup_error (host := Host.ascii_posix) x (mkExn NoDeviceConnectedError "") eq_refl)
  end.
Defined.

Lemma restore_without_error_witness :
  main (iphone [17; 0]%N "21A329" (inr tt)) =
    ([GetApps; HttpGet; Secho (replacing "Tips.app" "ABCD-1234");
      PerformRestore tips_backup false; Secho rebooting; Restart;
      Secho reenable_find_my; Secho install_persistence_helper],
     SystemExit 0%Z).
Proof.
  apply (restore_without_error (host := Host.ascii_posix) (iphone [17; 0]%N "21A329" (inr tt)) tips_backup
           eq_refl eq_refl eq_refl eq_refl).
Defined.

Lemma restart_failure_witness :
  exit_code
    (main {| startup := None; app_option := Some "Tips"; prompt_reply := "";
             DeviceClass := Some "iPhone"; BuildVersion := Some "20G75";
             product_version := [16; 6]%N; get_apps := inr tips_registry;
             http_get := Some []; perform_restore := fun _ => inr tt;
             restart := inl (mkExn PyMobileDevice3Exception "timeout") |}) =
    1%Z.
Proof.
  match goal with
  | |- exit_code (main ?x) = _ =>
      apply (proj1 (proj2 (restart_failure (host := Host.ascii_posix) x tips_backup
                             (mkExn PyMobileDevice3Exception "timeout")
                             eq_refl eq_refl eq_refl eq_refl)))
  end.
Defined.

Lemma registry_error_witness :
  exit_code
    (main {| startup := None; app_option := Some "Tips"; prompt_reply := "";
             DeviceClass := Some "iPhone"; BuildVersion := Some "20G75";
             product_version := [16; 6]%N;
             get_apps := inl (mkExn PyMobileDevice3Exception "locked");
             http_get := Some []; perform_restore := fun _ => inr tt;
             restart := inr tt |}) =
    1%Z.
Proof.
  match goal with
  | |- exit_code (main ?x) = _ =>
      apply (proj1 (proj2 (registry_error (host := Host.ascii_posix) x
                             (mkExn PyMobileDevice3Exception "locked")
                             eq_refl eq_refl eq_refl eq_refl)))
  end.
Defined.

Lemma download_failure_witness :
  cli (iphone_16_6 (Some "20G75") tips_registry None) =
    ([GetApps; HttpGet; Secho download_failed], Return PayloadUnavailable).
Proof.
  apply (proj2 (download_failure (host := Host.ascii_posix) (iphone_16_6 (Some "20G75") tips_registry None))).
  reflexivity.
Defined.

Lemma resolver_ignores_case_witness :
  snd (app_resolver tips_registry "TIPS") = Done ("Tips.app", "ABCD-1234").
Proof.
  rewrite (proj2 (resolver_ignores_case (host := Host.ascii_posix) tips_registry "TIPS" "tips" eq_refl)).
  reflexivity.
Defined.

Lemma resolver_suffix_optional_witness :
  app_resolver tips_registry ("Tips" ++ ".app") =
    ([], Done ("Tips.app", "ABCD-1234")).
Proof.
  rewrite (proj2 (resolver_suffix_optional (host := Host.ascii_posix) tips_registry "Tips") eq_refl).
  reflexivity.
Defined.

Lemma resolver_reads_paths_only_witness :
  app_resolver [("another.identifier", AppDict (Some tips_path))] "Tips" =
    ([], Done ("Tips.app", "ABCD-1234")).
Proof.
  rewrite (proj2 (resolver_reads_paths_only (host := Host.ascii_posix) tips_registry "Tips")
             [("another.identifier", AppDict (Some tips_path))] eq_refl).
  reflexivity.
Defined.

Lemma resolver_immediate_parent_witness :
  app_resolver [("com.apple.tips",
                 AppDict (Some (bundle_path ["ABCD-1234"] "Tips.app")))] "tips" =
    ([], Done ("Tips.app", "ABCD-1234")) /\
  app_resolver [("com.apple.tips", AppDict (Some (bundle_path [] "Tips.app")))]
               "tips" =
    ([], Done ("Tips.app", "Application")).
Proof.
  split.
  - apply (resolver_immediate_parent PyStr.lower [] [] "com.apple.tips"
             ["ABCD-1234"] "Tips.app" "tips").
    + repeat constructor.
    + reflexivity.
    + reflexivity.
    + intros it [].
  - apply (resolver_immediate_parent PyStr.lower [] [] "com.apple.tips" []
             "Tips.app" "tips").
    + constructor.
    + reflexivity.
    + reflexivity.
    + intros it [].
Defined.

Lemma payload_in_one_entry_witness :
  entry_contents
    (ConcreteFile "Library/Preferences/temp" "RootDomain"
       (Some 33%Z) (Some 33%Z) [Byte.x01; Byte.x02] (Some 0%Z)) =
    [Byte.x01; Byte.x02].
Proof.
  apply (proj1 (payload_in_one_entry [Byte.x01; Byte.x02] "Tips.app" "ABCD-1234"
                  3 _ eq_refl)).
Defined.

Lemma marker_of_last_entry_witness :
  restore_accepted
    (inl (mkExn PyMobileDevice3Exception
            "no such domain: SysContainerDomain-../../../../../../../../crash_on_purpose"))
    = true.
Proof.
  apply (proj2 (marker_of_last_entry [] "Tips.app" "ABCD-1234" _));
    reflexivity.
Defined.

Lemma prompt_iff_witness :
  In Prompt
     (trace (main {| startup := None; app_option := Some "";
                     prompt_reply := "Tips";
                     DeviceClass := Some "iPhone"; BuildVersion := Some "20G75";
                     product_version := [16; 6]%N; get_apps := inr tips_registry;
                     http_get := Some []; perform_restore := fun _ => inr tt;
                     restart := inr tt |})).
Proof.
  match goal with
  | |- In Prompt (trace (main ?x)) =>
      apply (proj2 (proj1 (prompt_iff (host := Host.ascii_posix) x)))
  end.
  repeat split.
Defined.

Lemma resolved_name_has_suffix_witness :
  PyStr.split_first "." "Tips.app" <> "Tips.app".
Proof.
  apply (proj2 (resolved_name_has_suffix (host := Host.ascii_posix) tips_registry "tips" []
                  "Tips.app" "ABCD-1234" ascii_lower_keeps_dots eq_refl)).
Defined.

Lemma cli_exits_only_for_find_my_witness :
  snd (cli (iphone [16; 6]%N "20G75" (inl both_markers))) = SystemExit 1%Z.
Proof.
  apply (proj2 (cli_exits_only_for_find_my (host := Host.ascii_posix)
                  (iphone [16; 6]%N "20G75" (inl both_markers)) 1%Z)).
  split; [reflexivity|]. exists tips_backup, both_markers. now repeat split.
Defined.

